(** * Work-centric coordination engine of the location tracker (src/App.jsx)

    A shallow embedding of the non-UI classes of [App.jsx]:
    [haversine], [RoutingService], [WorkCentricHospitalService],
    [OptimizedNetworkPathfinder] and [WorkCentricLocationService].

    Conventions of the embedding.
    - A JavaScript number that carries a coordinate, a distance, a duration or
      a score is a real number ([R]): rounding, NaN and the infinities of
      IEEE-754 doubles are not modelled.  In particular [haversine] is the
      exact formula: for nearly antipodal points the double [a] of the source
      can exceed 1 by rounding, [Math.sqrt(1 - a)] is then NaN and so is the
      distance, and every [<] against it is false; the statements below
      speak of the exact formula.  Integer-valued numbers ([workPriority],
      millisecond timestamps, OSM element ids) are [Z].
    - [null] / [undefined] are [None]; a JavaScript object is a record.
    - A [try { ... } catch] block is a body of type [option _] ([None] = an
      exception was thrown) followed by the handler.
    - The replies of the two HTTP collaborators (OSRM, Overpass) are inputs of
      the operations that [await] them; every operation runs as one atomic
      step.
    - A [Map] is an association list in insertion order, a [Set] of callbacks
      a duplicate-free list in insertion order. *)

From Stdlib Require Import Reals Lra Lia ZArith String Ascii Bool List.
From Stdlib Require Import DecimalString Sorted Permutation.
Import ListNotations.

Open Scope R_scope.

(** ** JavaScript primitives *)

(** [x < y] on numbers. *)
Definition Rltb (x y : R) : bool := if Rlt_dec x y then true else false.

(** [!x] on a number that may be absent: [undefined] and [0] are falsy. *)
Definition falsy_num (x : option R) : bool :=
  match x with
  | None => true
  | Some v => if Req_dec_T v 0 then true else false
  end.

(** Template-literal rendering of an integer. *)
Definition string_of_Z (z : Z) : string :=
  NilZero.string_of_int (Z.to_int z).

(** [Math.atan2(y, x)]. *)
Definition atan2 (y x : R) : R :=
  if Rlt_dec 0 x then atan (y / x)
  else if Rlt_dec x 0 then
    (if Rle_dec 0 y then atan (y / x) + PI else atan (y / x) - PI)
  else if Rlt_dec 0 y then PI / 2
  else if Rlt_dec y 0 then - (PI / 2)
  else 0.

(** [Array.prototype.sort(cmp)]: the sort is stable, and [a] stays before [b]
    unless [cmp(a, b) > 0].  For a consistent comparator the result is the
    stable sorted permutation, which insertion from the right computes. *)
Section JsSort.
Context {A : Type} (cmp : A -> A -> R).

Fixpoint js_insert (x : A) (l : list A) : list A :=
  match l with
  | [] => [x]
  | y :: ys => if Rle_dec (cmp x y) 0 then x :: y :: ys
               else y :: js_insert x ys
  end.

Fixpoint js_sort (l : list A) : list A :=
  match l with
  | [] => []
  | x :: xs => js_insert x (js_sort xs)
  end.
End JsSort.

(** [String.prototype.includes]. *)
Fixpoint includes (needle hay : string) : bool :=
  if String.prefix needle hay then true
  else match hay with
       | EmptyString => false
       | String _ rest => includes needle rest
       end.

(** ** GeoMath: [haversine] (App.jsx, lines 14-24)

    The formula over the reals.  The source computes it in doubles and does
    not clamp [a] to [0, 1]: where rounding makes [a] exceed 1 the source
    returns NaN and this definition does not. *)

Definition LatLng : Type := (R * R)%type.

Definition haversine (lat1 lon1 lat2 lon2 : R) : R :=
  let R_earth := 6371 in
  let dLat := (lat2 - lat1) * (PI / 180) in
  let dLon := (lon2 - lon1) * (PI / 180) in
  let a :=
    sin (dLat / 2) ^ 2 +
    cos (lat1 * (PI / 180)) *
    cos (lat2 * (PI / 180)) *
    sin (dLon / 2) ^ 2 in
  R_earth * 2 * atan2 (sqrt a) (sqrt (1 - a)).

(** ** RoutingService (App.jsx, lines 38-96) *)

(** One element of [data.routes] in an OSRM reply.  [osrm_geometry] is
    [None] when [route.geometry] or its [coordinates] is missing, [osrm_legs]
    when [route.legs] is: reading either then throws. *)
Record OsrmLeg := { leg_steps : option (list string) }.

Record OsrmRoute := {
  osrm_geometry : option (list (R * R)); (* geometry.coordinates: [lng, lat] pairs *)
  osrm_distance : R;                     (* metres *)
  osrm_duration : R;                     (* seconds *)
  osrm_legs : option (list OsrmLeg)
}.

(** What [fetch] and [response.json()] give back. *)
Inductive OsrmReply :=
| OsrmNetworkError                        (* [fetch] rejects *)
| OsrmNotOk                               (* [!response.ok] *)
| OsrmBadJson                             (* [response.json()] rejects *)
| OsrmBody (routes : option (list OsrmRoute)).

Record Route := {
  rt_coordinates : list LatLng;
  rt_distance : R;                        (* km *)
  rt_duration : R;                        (* minutes *)
  rt_steps : list string;
  rt_isFallback : bool                    (* absent on the provider's route *)
}.

(** ** Facility directory records (App.jsx, lines 100-190) *)

Record OsmCenter := { center_lat : option R; center_lon : option R }.

(** One element of [data.elements] in an Overpass reply. *)
Record OsmElement := {
  el_type : string;
  el_id : Z;
  el_lat : option R;
  el_lon : option R;
  el_center : option OsmCenter;
  el_nodes : option (list Z);
  el_tags : option (list (string * string))
}.

Inductive OverpassReply :=
| OverpassNetworkError                    (* [fetch] rejects *)
| OverpassNotOk                           (* [!response.ok] *)
| OverpassBadJson                         (* [response.json()] rejects *)
| OverpassBody (elements : option (list OsmElement)).

Record Hospital := {
  hosp_id : string;
  hosp_name : string;
  hosp_type : string;
  hosp_position : LatLng;
  hosp_distance : R;
  hosp_address : string;
  hosp_phone : string;
  hosp_emergency : bool;
  hosp_website : string;
  hosp_wheelchairAccess : bool;
  hosp_openingHours : option string;      (* absent on fallback hospitals *)
  hosp_emergencyHours : option string;
  hosp_specialties : option string;
  hosp_workPriority : Z;
  hosp_tags : list (string * string)
}.

(** A hospital merged with its route: [{...dest, route, roadDistance,
    estimatedTime}]. *)
Record HospitalRoute := {
  hr_dest : Hospital;
  hr_route : option Route;
  hr_roadDistance : R;
  hr_estimatedTime : R
}.

(** One entry of the result of [Promise.allSettled]. *)
Inductive Settled (A : Type) :=
| Fulfilled (value : A)
| Rejected.
Arguments Fulfilled {A} value.
Arguments Rejected {A}.

(** [Array.prototype.map] with the index argument. *)
Fixpoint mapi_from {A B : Type} (i : nat) (f : A -> nat -> B) (l : list A) : list B :=
  match l with
  | [] => []
  | x :: xs => f x i :: mapi_from (S i) f xs
  end.
Definition mapi {A B : Type} (f : A -> nat -> B) (l : list A) : list B :=
  mapi_from 0 f l.

Module RoutingService.

(** The [try] block of [getRoute]. *)
Definition getRoute_try (reply : OsrmReply) : option Route :=
  match reply with
  | OsrmNetworkError => None
  | OsrmNotOk => None                   (* throw 'Routing service unavailable' *)
  | OsrmBadJson => None
  | OsrmBody (Some (route :: _)) =>
      match osrm_geometry route with
      | None => None                    (* route.geometry.coordinates.map throws *)
      | Some coordinates =>
          match osrm_legs route with
          | None => None                (* route.legs[0] on undefined throws *)
          | Some legs =>
              Some {| rt_coordinates :=
                        map (fun coord => (snd coord, fst coord)) coordinates;
                      rt_distance := osrm_distance route / 1000;
                      rt_duration := osrm_duration route / 60;
                      rt_steps :=
                        match legs with
                        | {| leg_steps := Some steps |} :: _ => steps
                        | _ => []
                        end;
                      rt_isFallback := false |}
          end
      end
  | OsrmBody _ => None                  (* throw 'No route found' *)
  end.

Definition getRoute (fromLat fromLng toLat toLng : R) (profile : string)
    (reply : OsrmReply) : Route :=
  match getRoute_try reply with
  | Some r => r
  | None =>
      {| rt_coordinates := [(fromLat, fromLng); (toLat, toLng)];
         rt_distance := haversine fromLat fromLng toLat toLng;
         rt_duration := haversine fromLat fromLng toLat toLng * 2;
         rt_steps := [];
         rt_isFallback := true |}
  end.

Definition getMultipleRoutes (fromLat fromLng : R) (destinations : list Hospital)
    (replies : nat -> OsrmReply) : list HospitalRoute :=
  (* getRoute has no path that rejects: every entry settles as fulfilled *)
  let routes :=
    mapi (fun dest index =>
            Fulfilled (getRoute fromLat fromLng
                         (fst (hosp_position dest)) (snd (hosp_position dest))
                         "driving" (replies index)))
         destinations in
  mapi (fun dest index =>
          match nth index routes Rejected with
          | Fulfilled value =>
              {| hr_dest := dest;
                 hr_route := Some value;
                 hr_roadDistance := rt_distance value;
                 hr_estimatedTime := rt_duration value |}
          | Rejected =>
              {| hr_dest := dest;
                 hr_route := None;
                 hr_roadDistance := hosp_distance dest;
                 hr_estimatedTime := hosp_distance dest * 2 |}
          end)
       destinations.

End RoutingService.

(** ** WorkCentricHospitalService (App.jsx, lines 99-191) *)

(** [tags?.[key]] *)
Fixpoint assoc (key : string) (l : list (string * string)) : option string :=
  match l with
  | [] => None
  | (k, v) :: rest => if String.eqb k key then Some v else assoc key rest
  end.

Definition tag (element : OsmElement) (key : string) : option string :=
  match el_tags element with
  | None => None
  | Some tags => assoc key tags
  end.

(** [x === 'yes'] *)
Definition is_yes (x : option string) : bool :=
  match x with
  | Some v => String.eqb v "yes"
  | None => false
  end.

(** Truthiness of a string that may be absent. *)
Definition truthy_str (x : option string) : bool :=
  match x with
  | Some EmptyString => false
  | Some _ => true
  | None => false
  end.

(** [x || y] and [x || 'literal'] on such strings. *)
Definition str_or (x y : option string) : option string :=
  if truthy_str x then x else y.
Definition str_or_lit (x : option string) (lit : string) : string :=
  match x with
  | Some v => if truthy_str x then v else lit
  | None => lit
  end.

Module WorkCentricHospitalService.

(** The coordinates the callback of [data.elements.map] resolves:
    [None] is the early [return null] of the way-with-nodes branch. *)
Definition resolve (element : OsmElement) : option (option R * option R) :=
  if String.eqb (el_type element) "node" then
    Some (el_lat element, el_lon element)
  else
    match el_center element with
    | Some c => Some (center_lat c, center_lon c)
    | None =>
        if String.eqb (el_type element) "way" then
          match el_nodes element with
          | Some _ => None
          | None => Some (None, None)
          end
        else Some (None, None)
    end.

(** The callback of [data.elements.map]; [None] is [null]. *)
Definition toHospital (latitude longitude : R) (element : OsmElement)
    : option Hospital :=
  match resolve element with
  | None => None
  | Some (olat, olon) =>
      if falsy_num olat || falsy_num olon then None
      else
        match olat, olon with
        | Some lat, Some lon =>
            let distance := haversine latitude longitude lat lon in
            let isEmergency :=
              is_yes (tag element "emergency") ||
              is_yes (tag element "emergency:medical") ||
              match tag element "healthcare:speciality" with
              | Some s => includes "emergency" s
              | None => false
              end in
            let workPriority := 0%Z in
            let workPriority :=
              if isEmergency then (workPriority + 10)%Z else workPriority in
            let workPriority :=
              if is_yes (tag element "wheelchair")
              then (workPriority + 5)%Z else workPriority in
            let workPriority :=
              if truthy_str (tag element "opening_hours:emergency")
              then (workPriority + 3)%Z else workPriority in
            let workPriority :=
              if Rltb distance 2 then (workPriority + 8)%Z
              else if Rltb distance 5 then (workPriority + 5)%Z
              else if Rltb distance 10 then (workPriority + 2)%Z
              else workPriority in
            Some
              {| hosp_id := "hospital-" ++ string_of_Z (el_id element);
                 hosp_name :=
                   str_or_lit (str_or (tag element "name") (tag element "name:en"))
                              "Medical Facility";
                 hosp_type :=
                   match tag element "amenity" with
                   | Some a => if String.eqb a "clinic" then "clinic" else "hospital"
                   | None => "hospital"
                   end;
                 hosp_position := (lat, lon);
                 hosp_distance := distance;
                 hosp_address :=
                   str_or_lit (str_or (tag element "addr:street")
                                      (tag element "addr:full")) "";
                 hosp_phone :=
                   str_or_lit (str_or (tag element "phone")
                                      (tag element "contact:phone")) "";
                 hosp_emergency := isEmergency;
                 hosp_website :=
                   str_or_lit (str_or (tag element "website")
                                      (tag element "contact:website")) "";
                 hosp_wheelchairAccess := is_yes (tag element "wheelchair");
                 hosp_openingHours :=
                   Some (str_or_lit (tag element "opening_hours") "");
                 hosp_emergencyHours :=
                   Some (str_or_lit (tag element "opening_hours:emergency") "");
                 hosp_specialties :=
                   Some (str_or_lit (tag element "healthcare:speciality") "");
                 hosp_workPriority := workPriority;
                 hosp_tags :=
                   match el_tags element with Some t => t | None => [] end |}
        | _, _ => None
        end
  end.

(** [.filter(h => h !== null)] *)
Fixpoint dropNull {A : Type} (l : list (option A)) : list A :=
  match l with
  | [] => []
  | Some x :: rest => x :: dropNull rest
  | None :: rest => dropNull rest
  end.

(** The comparator of [hospitals.sort] (lines 156-161). *)
Definition rankCompare (a b : Hospital) : R :=
  if negb (Z.eqb (hosp_workPriority b) (hosp_workPriority a)) then
    IZR (hosp_workPriority b - hosp_workPriority a)
  else hosp_distance a - hosp_distance b.

(** The comparator of the fallback list's [.sort] (line 189). *)
Definition fallbackCompare (a b : Hospital) : R :=
  IZR (hosp_workPriority b - hosp_workPriority a).

Record FallbackSeed := {
  seed_name : string; seed_lat : R; seed_lon : R; seed_emergency : bool
}.

(** The literal array [fallbackHospitals] (lines 170-175). *)
Definition fallbackSeeds (latitude longitude : R) : list FallbackSeed :=
  [ {| seed_name := "Emergency Medical Center";
       seed_lat := latitude + 0.01; seed_lon := longitude + 0.01;
       seed_emergency := true |};
    {| seed_name := "General Hospital";
       seed_lat := latitude - 0.01; seed_lon := longitude + 0.01;
       seed_emergency := false |};
    {| seed_name := "City Medical Center";
       seed_lat := latitude + 0.01; seed_lon := longitude - 0.01;
       seed_emergency := false |};
    {| seed_name := "Regional Hospital";
       seed_lat := latitude - 0.01; seed_lon := longitude - 0.01;
       seed_emergency := true |} ].

(** The callback of [fallbackHospitals.map] (lines 176-189). *)
Definition toFallback (latitude longitude : R) (hospital : FallbackSeed) (index : nat)
    : Hospital :=
  {| hosp_id := "fallback-hospital-" ++ string_of_Z (Z.of_nat index);
     hosp_name := seed_name hospital;
     hosp_type := "hospital";
     hosp_position := (seed_lat hospital, seed_lon hospital);
     hosp_distance :=
       haversine latitude longitude (seed_lat hospital) (seed_lon hospital);
     hosp_address := "Address not available";
     hosp_phone := "Emergency: 911";
     hosp_emergency := seed_emergency hospital;
     hosp_website := "";
     hosp_wheelchairAccess := false;
     hosp_openingHours := None;
     hosp_emergencyHours := None;
     hosp_specialties := None;
     hosp_workPriority := if seed_emergency hospital then 10%Z else 5%Z;
     hosp_tags := [] |}.

Definition getFallbackHospitals (latitude longitude : R) : list Hospital :=
  let fallbackHospitals := fallbackSeeds latitude longitude in
  js_sort fallbackCompare (mapi (toFallback latitude longitude) fallbackHospitals).

(** The [try] block of [findNearbyHospitals]. *)
Definition findNearbyHospitals_try (latitude longitude : R) (reply : OverpassReply)
    : option (list Hospital) :=
  match reply with
  | OverpassNetworkError => None
  | OverpassNotOk => None               (* throw 'Failed to fetch hospitals' *)
  | OverpassBadJson => None
  | OverpassBody None => None           (* data.elements.map on undefined throws *)
  | OverpassBody (Some elements) =>
      let hospitals := dropNull (map (toHospital latitude longitude) elements) in
      Some (js_sort rankCompare hospitals)
  end.

Definition findNearbyHospitals (latitude longitude radiusKm : R)
    (reply : OverpassReply) : list Hospital :=
  match findNearbyHospitals_try latitude longitude reply with
  | Some hospitals => hospitals
  | None => getFallbackHospitals latitude longitude
  end.

End WorkCentricHospitalService.

(** ** Devices and connections (App.jsx, lines 194-300) *)

Record Device := {
  dev_id : string;
  dev_name : string;
  dev_position : option LatLng;
  dev_lastUpdate : option Z;              (* [Date], milliseconds *)
  dev_isOnline : bool;
  dev_accuracy : R;
  dev_workRole : string;
  dev_emergencyResponder : bool;
  dev_lastEmergencyUpdate : option Z
}.

(** A connection object.  [conn_from] and [conn_to] are the device objects as
    they are when the connection is built; [workScore] is absent on the
    emergency star, [isEmergencyPath] on the scored pairs. *)
Record Connection := {
  conn_distance : R;
  conn_from : Device;
  conn_to : Device;
  conn_positions : LatLng * LatLng;
  conn_workScore : option R;
  conn_isEmergencyPath : bool
}.

(** [d.position && d.isOnline] *)
Definition usable (d : Device) : bool :=
  match dev_position d with
  | Some _ => dev_isOnline d
  | None => false
  end.

(** [d.position] of a device that passed the [usable] filter. *)
Definition pos (d : Device) : LatLng :=
  match dev_position d with
  | Some p => p
  | None => (0, 0)
  end.

(** [haversine(d.position[0], d.position[1], p[0], p[1])] *)
Definition distTo (d : Device) (p : LatLng) : R :=
  haversine (fst (pos d)) (snd (pos d)) (fst p) (snd p).

Definition workScoreOf (c : Connection) : R :=
  match conn_workScore c with
  | Some w => w
  | None => 0
  end.

(** A [Set] of strings: [has] and [add]. *)
Definition set_has (s : list string) (x : string) : bool :=
  existsb (String.eqb x) s.
Definition set_add (s : list string) (x : string) : list string :=
  if set_has s x then s else s ++ [x].

Module OptimizedNetworkPathfinder.

(** The body of the two nested loops for one pair [(nodes[i], nodes[j])]. *)
Definition scoredPair (hospitalPositions : list LatLng) (ni nj : Device) : Connection :=
  let dist := distTo ni (pos nj) in
  let workScore := 100 - dist * 10 in
  let workScore :=
    fold_left
      (fun workScore hospitalPos =>
         let node1ToHospital := distTo ni hospitalPos in
         let node2ToHospital := distTo nj hospitalPos in
         if Rltb node1ToHospital 2 || Rltb node2ToHospital 2
         then workScore + 20 else workScore)
      hospitalPositions workScore in
  {| conn_distance := dist;
     conn_from := ni;
     conn_to := nj;
     conn_positions := (pos ni, pos nj);
     conn_workScore := Some workScore;
     conn_isEmergencyPath := false |}.

(** [for i ... for j = i + 1 ...]: the pairs in the order they are pushed. *)
Fixpoint allPairs (hospitalPositions : list LatLng) (nodes : list Device)
    : list Connection :=
  match nodes with
  | [] => []
  | ni :: rest =>
      map (scoredPair hospitalPositions ni) rest ++ allPairs hospitalPositions rest
  end.

Definition findWorkOptimalPaths (devices : list Device) (hospitals : list Hospital)
    : list Connection :=
  let nodes := filter usable devices in
  if (length nodes <? 2)%nat then []
  else
    let hospitalPositions := map hosp_position (firstn 3 hospitals) in
    let paths := allPairs hospitalPositions nodes in
    js_sort (fun a b => workScoreOf b - workScoreOf a) paths.

(** The [for (const path of paths)] loop of [findMinimumSpanningTree];
    [target] is [devices.filter(...).length - 1]. *)
Fixpoint mstLoop (target : Z) (paths : list Connection)
    (mst : list Connection) (connectedNodes : list string) : list Connection :=
  match paths with
  | [] => mst
  | path :: rest =>
      let fromConnected := set_has connectedNodes (dev_id (conn_from path)) in
      let toConnected := set_has connectedNodes (dev_id (conn_to path)) in
      if negb fromConnected || negb toConnected then
        let mst := mst ++ [path] in
        let connectedNodes := set_add connectedNodes (dev_id (conn_from path)) in
        let connectedNodes := set_add connectedNodes (dev_id (conn_to path)) in
        if (Z.of_nat (length mst) =? target)%Z then mst
        else mstLoop target rest mst connectedNodes
      else mstLoop target rest mst connectedNodes
  end.

Definition findMinimumSpanningTree (devices : list Device) (hospitals : list Hospital)
    : list Connection :=
  let paths := findWorkOptimalPaths devices hospitals in
  match paths with
  | [] => []
  | _ :: _ =>
      let paths := js_sort (fun a b => conn_distance a - conn_distance b) paths in
      mstLoop (Z.of_nat (length (filter usable devices)) - 1) paths [] []
  end.

(** First [forEach] of [createEmergencyTopology]: the running closest device
    and its distance to the hospital. *)
Definition closestStep (hospitalPos : LatLng) (acc : Device * R) (device : Device)
    : Device * R :=
  let distToHospital := distTo device hospitalPos in
  if Rltb distToHospital (snd acc) then (device, distToHospital) else acc.

Definition createEmergencyTopology (devices : list Device) (hospitals : list Hospital)
    : list Connection :=
  let onlineDevices := filter usable devices in
  match onlineDevices, hospitals with
  | first :: _, nearestHospital :: _ =>
      let closest :=
        fold_left (closestStep (hosp_position nearestHospital)) onlineDevices
                  (first, distTo first (hosp_position nearestHospital)) in
      let closestToHospital := fst closest in
      map (fun device =>
             {| conn_distance := distTo closestToHospital (pos device);
                conn_from := closestToHospital;
                conn_to := device;
                conn_positions := (pos closestToHospital, pos device);
                conn_workScore := None;
                conn_isEmergencyPath := true |})
          (filter (fun device =>
                     negb (String.eqb (dev_id device) (dev_id closestToHospital)))
                  onlineDevices)
  | _, _ => []
  end.

End OptimizedNetworkPathfinder.

(** ** WorkCentricLocationService (App.jsx, lines 286-472) *)

Record WorkContext := {
  emergencyMode : bool;
  prioritizeSpeed : bool;
  maxResponseTime : Z
}.

(** A subscriber is a function object; its identity is a number here. *)
Definition Callback : Type := nat.

(** The object [notifySubscribers] hands to each callback. *)
Record NetworkSnapshot := {
  snap_devices : list Device;
  snap_connections : list Connection;
  snap_hospitals : list Hospital;
  snap_hospitalRoutes : list HospitalRoute;
  snap_topology : string;
  snap_workContext : WorkContext;
  snap_emergencyRoute : option HospitalRoute;
  snap_shortestRoute : option HospitalRoute
}.

(** One call [callback(snapshot)]. *)
Definition Publication : Type := (Callback * NetworkSnapshot)%type.

(** The fields of the service object.  [routingCache] is created and never
    used; [pendingNotifies] counts the [setTimeout] callbacks of
    [updateDeviceLocation] that have not run yet. *)
Record Service := {
  devices : list (string * Device);
  hospitals : list Hospital;
  hospitalRoutes : list HospitalRoute;
  subscribers : list Callback;
  networkTopology : string;
  connections : list Connection;
  workContext : WorkContext;
  autoSelectShortestRoute : option HospitalRoute;
  pendingNotifies : nat
}.

(** [Map.prototype.get / set / delete] on an insertion-ordered map. *)
Fixpoint map_get {V : Type} (k : string) (m : list (string * V)) : option V :=
  match m with
  | [] => None
  | (k', v) :: rest => if String.eqb k' k then Some v else map_get k rest
  end.

Fixpoint map_set {V : Type} (k : string) (v : V) (m : list (string * V))
    : list (string * V) :=
  match m with
  | [] => [(k, v)]
  | (k', v') :: rest =>
      if String.eqb k' k then (k, v) :: rest else (k', v') :: map_set k v rest
  end.

Fixpoint map_delete {V : Type} (k : string) (m : list (string * V))
    : list (string * V) :=
  match m with
  | [] => []
  | (k', v') :: rest =>
      if String.eqb k' k then rest else (k', v') :: map_delete k rest
  end.

(** Field assignments on a device object. *)
Definition setRole (d : Device) (role : string) (responder : bool) : Device :=
  {| dev_id := dev_id d; dev_name := dev_name d; dev_position := dev_position d;
     dev_lastUpdate := dev_lastUpdate d; dev_isOnline := dev_isOnline d;
     dev_accuracy := dev_accuracy d; dev_workRole := role;
     dev_emergencyResponder := responder;
     dev_lastEmergencyUpdate := dev_lastEmergencyUpdate d |}.

Definition setOnline (d : Device) (online : bool) : Device :=
  {| dev_id := dev_id d; dev_name := dev_name d; dev_position := dev_position d;
     dev_lastUpdate := dev_lastUpdate d; dev_isOnline := online;
     dev_accuracy := dev_accuracy d; dev_workRole := dev_workRole d;
     dev_emergencyResponder := dev_emergencyResponder d;
     dev_lastEmergencyUpdate := dev_lastEmergencyUpdate d |}.

Definition setLocation (d : Device) (position : LatLng) (now : Z) (accuracy : R)
    : Device :=
  {| dev_id := dev_id d; dev_name := dev_name d; dev_position := Some position;
     dev_lastUpdate := Some now; dev_isOnline := true;
     dev_accuracy := accuracy; dev_workRole := dev_workRole d;
     dev_emergencyResponder := dev_emergencyResponder d;
     dev_lastEmergencyUpdate := dev_lastEmergencyUpdate d |}.

(** Field assignments on the service object. *)
Definition withDevices (s : Service) (v : list (string * Device)) : Service :=
  {| devices := v; hospitals := hospitals s; hospitalRoutes := hospitalRoutes s;
     subscribers := subscribers s; networkTopology := networkTopology s;
     connections := connections s; workContext := workContext s;
     autoSelectShortestRoute := autoSelectShortestRoute s;
     pendingNotifies := pendingNotifies s |}.

Definition withHospitals (s : Service) (v : list Hospital) : Service :=
  {| devices := devices s; hospitals := v; hospitalRoutes := hospitalRoutes s;
     subscribers := subscribers s; networkTopology := networkTopology s;
     connections := connections s; workContext := workContext s;
     autoSelectShortestRoute := autoSelectShortestRoute s;
     pendingNotifies := pendingNotifies s |}.

Definition withRoutes (s : Service) (v : list HospitalRoute)
    (sel : option HospitalRoute) : Service :=
  {| devices := devices s; hospitals := hospitals s; hospitalRoutes := v;
     subscribers := subscribers s; networkTopology := networkTopology s;
     connections := connections s; workContext := workContext s;
     autoSelectShortestRoute := sel;
     pendingNotifies := pendingNotifies s |}.

Definition withSubscribers (s : Service) (v : list Callback) : Service :=
  {| devices := devices s; hospitals := hospitals s; hospitalRoutes := hospitalRoutes s;
     subscribers := v; networkTopology := networkTopology s;
     connections := connections s; workContext := workContext s;
     autoSelectShortestRoute := autoSelectShortestRoute s;
     pendingNotifies := pendingNotifies s |}.

Definition withTopology (s : Service) (v : string) : Service :=
  {| devices := devices s; hospitals := hospitals s; hospitalRoutes := hospitalRoutes s;
     subscribers := subscribers s; networkTopology := v;
     connections := connections s; workContext := workContext s;
     autoSelectShortestRoute := autoSelectShortestRoute s;
     pendingNotifies := pendingNotifies s |}.

Definition withConnections (s : Service) (v : list Connection) : Service :=
  {| devices := devices s; hospitals := hospitals s; hospitalRoutes := hospitalRoutes s;
     subscribers := subscribers s; networkTopology := networkTopology s;
     connections := v; workContext := workContext s;
     autoSelectShortestRoute := autoSelectShortestRoute s;
     pendingNotifies := pendingNotifies s |}.

Definition withWorkContext (s : Service) (v : WorkContext) : Service :=
  {| devices := devices s; hospitals := hospitals s; hospitalRoutes := hospitalRoutes s;
     subscribers := subscribers s; networkTopology := networkTopology s;
     connections := connections s; workContext := v;
     autoSelectShortestRoute := autoSelectShortestRoute s;
     pendingNotifies := pendingNotifies s |}.

Definition withPending (s : Service) (v : nat) : Service :=
  {| devices := devices s; hospitals := hospitals s; hospitalRoutes := hospitalRoutes s;
     subscribers := subscribers s; networkTopology := networkTopology s;
     connections := connections s; workContext := workContext s;
     autoSelectShortestRoute := autoSelectShortestRoute s;
     pendingNotifies := v |}.

(** [arr[i] = f(arr[i])] *)
Fixpoint update_nth {A : Type} (i : nat) (f : A -> A) (l : list A) {struct l}
    : list A :=
  match l, i with
  | [], _ => []
  | x :: xs, O => f x :: xs
  | x :: xs, S i' => x :: update_nth i' f xs
  end.

(** The array [onlineDevices] shares its objects with the [devices] map:
    after they were mutated, the map holds the mutated objects.  [updated] is
    the filtered array after mutation, in the map's order. *)
Fixpoint writeBack (registry : list (string * Device)) (updated : list Device)
    : list (string * Device) :=
  match registry with
  | [] => []
  | (k, d) :: rest =>
      if usable d then
        match updated with
        | d' :: updated' => (k, d') :: writeBack rest updated'
        | [] => (k, d) :: writeBack rest []
        end
      else (k, d) :: writeBack rest updated
  end.

Module WorkCentricLocationService.

(** The constructor. *)
Definition new : Service :=
  {| devices := [];
     hospitals := [];
     hospitalRoutes := [];
     subscribers := [];
     networkTopology := "emergency";
     connections := [];
     workContext := {| emergencyMode := false; prioritizeSpeed := true;
                       maxResponseTime := 15 |};
     autoSelectShortestRoute := None;
     pendingNotifies := 0 |}.

Definition getEmergencyRoute (s : Service) : option HospitalRoute :=
  match hospitalRoutes s with
  | r :: _ => Some r
  | [] => None
  end.

Definition getShortestRoute (s : Service) : option HospitalRoute :=
  autoSelectShortestRoute s.

Definition getAllDevices (s : Service) : list Device :=
  map snd (devices s).

Definition snapshot (s : Service) : NetworkSnapshot :=
  {| snap_devices := map snd (devices s);
     snap_connections := connections s;
     snap_hospitals := hospitals s;
     snap_hospitalRoutes := hospitalRoutes s;
     snap_topology := networkTopology s;
     snap_workContext := workContext s;
     snap_emergencyRoute := getEmergencyRoute s;
     snap_shortestRoute := getShortestRoute s |}.

(** [notifySubscribers]: the calls it makes, in the order of the set. *)
Definition notifySubscribers (s : Service) : list Publication :=
  map (fun callback => (callback, snapshot s)) (subscribers s).

Definition subscribe (s : Service) (callback : Callback) : Service :=
  if existsb (Nat.eqb callback) (subscribers s) then s
  else withSubscribers s (subscribers s ++ [callback]).

(** The function [subscribe] returns. *)
Definition unsubscribe (s : Service) (callback : Callback) : Service :=
  withSubscribers s
    (filter (fun c => negb (Nat.eqb callback c)) (subscribers s)).

(** Second [forEach] of [assignWorkRoles]: index and distance of the running
    closest device. *)
Definition roleStep (hospitalPos : LatLng) (acc : nat * R) (entry : nat * Device)
    : nat * R :=
  let dist := distTo (snd entry) hospitalPos in
  if Rltb dist (snd acc) then (fst entry, dist) else acc.

(** [assignWorkRoles(devices)]: the array after the mutations. *)
Definition assignWorkRoles (hospitals : list Hospital) (devices : list Device)
    : list Device :=
  let devices := map (fun device => setRole device "worker" false) devices in
  match hospitals, devices with
  | nearestHospital :: _, first :: _ =>
      let closest :=
        fold_left (roleStep (hosp_position nearestHospital))
                  (combine (seq 0 (length devices)) devices)
                  (0%nat, distTo first (hosp_position nearestHospital)) in
      update_nth (fst closest)
                 (fun closestDevice => setRole closestDevice "emergency-responder" true)
                 devices
  | _, _ => devices
  end.

Definition updateNetworkTopology (s : Service) : Service :=
  let devs := map snd (devices s) in
  let onlineDevices := filter usable devs in
  if (length onlineDevices <? 2)%nat then withConnections s []
  else
    let conns :=
      if String.eqb (networkTopology s) "emergency" then
        OptimizedNetworkPathfinder.createEmergencyTopology onlineDevices (hospitals s)
      else if String.eqb (networkTopology s) "work-optimal" then
        firstn (length onlineDevices * 2)
          (OptimizedNetworkPathfinder.findWorkOptimalPaths onlineDevices (hospitals s))
      else if String.eqb (networkTopology s) "mst" then
        OptimizedNetworkPathfinder.findMinimumSpanningTree onlineDevices (hospitals s)
      else
        OptimizedNetworkPathfinder.createEmergencyTopology onlineDevices (hospitals s) in
    let s := withConnections s conns in
    withDevices s (writeBack (devices s) (assignWorkRoles (hospitals s) onlineDevices)).

(** The comparator of [hospitalRoutes.sort] (lines 308-312). *)
Definition urgencyCompare (a b : HospitalRoute) : R :=
  let scoreA := IZR (hosp_workPriority (hr_dest a)) + 20 / (hr_roadDistance a + 0.1) in
  let scoreB := IZR (hosp_workPriority (hr_dest b)) + 20 / (hr_roadDistance b + 0.1) in
  scoreB - scoreA.

Definition updateHospitals (s : Service) (latitude longitude radiusKm : R)
    (directory : OverpassReply) (routing : nat -> OsrmReply)
    : Service * list Publication :=
  let s :=
    withHospitals s
      (WorkCentricHospitalService.findNearbyHospitals latitude longitude radiusKm
         directory) in
  let s :=
    if (0 <? length (hospitals s))%nat then
      let topHospitals := firstn 5 (hospitals s) in
      let routes :=
        js_sort urgencyCompare
          (RoutingService.getMultipleRoutes latitude longitude topHospitals routing) in
      withRoutes s routes (match routes with r :: _ => Some r | [] => None end)
    else s in
  (s, notifySubscribers s).

Definition setEmergencyMode (s : Service) (enabled : bool)
    : Service * list Publication :=
  let s :=
    withWorkContext s
      {| emergencyMode := enabled;
         prioritizeSpeed := prioritizeSpeed (workContext s);
         maxResponseTime := maxResponseTime (workContext s) |} in
  let s := if enabled then withTopology s "emergency" else s in
  (updateNetworkTopology s, []).

Definition registerDevice (s : Service) (deviceId deviceName workRole : string)
    : Service * list Publication :=
  let device :=
    {| dev_id := deviceId;
       dev_name := deviceName;
       dev_position := None;
       dev_lastUpdate := None;
       dev_isOnline := true;
       dev_accuracy := 0;
       dev_workRole := workRole;
       dev_emergencyResponder := false;
       dev_lastEmergencyUpdate := None |} in
  let s := withDevices s (map_set deviceId device (devices s)) in
  (updateNetworkTopology s, []).

(** [updateDeviceLocation]; [now] is the value of [new Date()].  The
    [setTimeout] at its end is recorded in [pendingNotifies]. *)
Definition updateDeviceLocation (s : Service) (deviceId : string) (position : LatLng)
    (accuracy : R) (now : Z) (directory : OverpassReply) (routing : nat -> OsrmReply)
    : Service * list Publication :=
  match map_get deviceId (devices s) with
  | Some device =>
      let s :=
        withDevices s
          (map_set deviceId (setLocation device position now accuracy) (devices s)) in
      let '(s, published) :=
        updateHospitals s (fst position) (snd position) 2 directory routing in
      let s := updateNetworkTopology s in
      (withPending s (S (pendingNotifies s)), published)
  | None => (s, [])
  end.

(** The callback of that [setTimeout], when it runs. *)
Definition timerFires (s : Service) : Service * list Publication :=
  match pendingNotifies s with
  | O => (s, [])
  | S n => let s := withPending s n in (s, notifySubscribers s)
  end.

Definition removeDevice (s : Service) (deviceId : string)
    : Service * list Publication :=
  let s := withDevices s (map_delete deviceId (devices s)) in
  let s := updateNetworkTopology s in
  (s, notifySubscribers s).

Definition setNetworkTopology (s : Service) (topology : string)
    : Service * list Publication :=
  let s := withTopology s topology in
  (updateNetworkTopology s, []).

(** [device.lastUpdate && (now - device.lastUpdate) > 30000] *)
Definition stale (now : Z) (device : Device) : bool :=
  match dev_lastUpdate device with
  | Some lastUpdate => (30000 <? now - lastUpdate)%Z
  | None => false
  end.

(** The [forEach] of [markOfflineIfStale]: the map after the loop and the
    flag [changed]. *)
Fixpoint sweep (now : Z) (entries : list (string * Device)) (changed : bool)
    : list (string * Device) * bool :=
  match entries with
  | [] => ([], changed)
  | (k, device) :: rest =>
      if stale now device then
        if dev_isOnline device then
          let '(rest', changed') := sweep now rest true in
          ((k, setOnline device false) :: rest', changed')
        else
          let '(rest', changed') := sweep now rest changed in
          ((k, device) :: rest', changed')
      else
        let '(rest', changed') := sweep now rest changed in
        ((k, device) :: rest', changed')
  end.

(** [markOfflineIfStale]; [now] is the value of [new Date()]. *)
Definition markOfflineIfStale (s : Service) (now : Z) : Service * list Publication :=
  let '(devices', changed) := sweep now (devices s) false in
  let s := withDevices s devices' in
  if changed then
    let s := updateNetworkTopology s in
    (s, notifySubscribers s)
  else (s, []).

End WorkCentricLocationService.

(** ** Predicates and sample inputs used in the statements *)

(** The failures of the routing provider: the request fails, the response
    is not a success, its body does not parse, or it lists no route. *)
Inductive RouteFailure : OsrmReply -> Prop :=
| RF_network : RouteFailure OsrmNetworkError
| RF_not_ok : RouteFailure OsrmNotOk
| RF_bad_json : RouteFailure OsrmBadJson
| RF_no_routes : RouteFailure (OsrmBody None)
| RF_empty_routes : RouteFailure (OsrmBody (Some [])).

(** A hospital node on the equator. *)
Definition equatorNode : OsmElement :=
  {| el_type := "node"; el_id := 7; el_lat := Some 0; el_lon := Some 100.5;
     el_center := None; el_nodes := None;
     el_tags := Some [("amenity", "hospital"); ("emergency", "yes")]%string |}.


(** Two device objects that differ at most in the derived role fields. *)
Definition sameButRole (d d' : Device) : Prop :=
  dev_id d' = dev_id d /\
  dev_name d' = dev_name d /\
  dev_position d' = dev_position d /\
  dev_lastUpdate d' = dev_lastUpdate d /\
  dev_isOnline d' = dev_isOnline d /\
  dev_accuracy d' = dev_accuracy d /\
  dev_lastEmergencyUpdate d' = dev_lastEmergencyUpdate d.

(** An entry of the registry before and after a topology rebuild. *)
Definition rebuiltEntry (e e' : string * Device) : Prop :=
  fst e' = fst e /\
  sameButRole (snd e) (snd e') /\
  (usable (snd e) = false -> e' = e).

(** An entry of the registry before ([e]) and after ([e']) the staleness
    sweep run at time [now]. *)
Definition sweptEntry (now : Z) (e e' : string * Device) : Prop :=
  fst e' = fst e /\
  dev_lastUpdate (snd e') = dev_lastUpdate (snd e) /\
  (dev_isOnline (snd e') = false <->
     dev_isOnline (snd e) = false \/
     exists t, dev_lastUpdate (snd e) = Some t /\ (now - t > 30000)%Z) /\
  (dev_lastUpdate (snd e) = Some (now - 30001)%Z -> dev_isOnline (snd e') = false) /\
  (dev_lastUpdate (snd e) = Some (now - 29999)%Z ->
     dev_isOnline (snd e') = dev_isOnline (snd e)) /\
  (dev_lastUpdate (snd e) = None ->
     dev_isOnline (snd e') = dev_isOnline (snd e) /\
     (dev_position (snd e) = None -> e' = e)).

(** [isOnline] of every registered device, in the order of the map. *)
Definition onlineFlags (s : Service) : list bool :=
  map (fun e => dev_isOnline (snd e)) (devices s).

(** The failures of the facility directory: the request fails, the response
    is not a success, or its body is malformed. *)
Inductive DirectoryFailure : OverpassReply -> Prop :=
| DF_network : DirectoryFailure OverpassNetworkError
| DF_not_ok : DirectoryFailure OverpassNotOk
| DF_bad_json : DirectoryFailure OverpassBadJson
| DF_no_elements : DirectoryFailure (OverpassBody None).

(** Flags that alternate along a list: neighbours always differ. *)
Fixpoint alternating (flags : list bool) : Prop :=
  match flags with
  | a :: (b :: _) as rest => a <> b /\ alternating rest
  | _ => True
  end.

(** The ranking order on two neighbours [x], [y] of a list: higher
    [workPriority] first, ties by ascending [distance]. *)
Definition rankOrder (x y : Hospital) : Prop :=
  (hosp_workPriority x > hosp_workPriority y)%Z \/
  (hosp_workPriority x = hosp_workPriority y /\ hosp_distance x <= hosp_distance y).

(** The order the fallback list is sorted by: [workPriority] alone. *)
Definition priorityOrder (x y : Hospital) : Prop :=
  (hosp_workPriority x >= hosp_workPriority y)%Z.

(** Sample inputs: the default map centre of the application, a service with
    one subscriber, and a service whose only device has reported a position
    while the facility directory was unreachable. *)
Definition sampleOrigin : LatLng := (22.5958, 88.2636).

Definition oneSubscriber : Service :=
  WorkCentricLocationService.subscribe WorkCentricLocationService.new 1%nat.

Definition oneRegistered : Service :=
  fst (WorkCentricLocationService.registerDevice
         WorkCentricLocationService.new "device-1" "Worker-1" "worker").

Definition oneLocated : Service :=
  fst (WorkCentricLocationService.updateDeviceLocation
         oneRegistered "device-1" sampleOrigin 5 1000
         OverpassNotOk (fun _ => OsrmNotOk)).

(** Every subscriber of [s] is called once, in order, with the snapshot of [s]. *)
Definition publishedToAll (s : Service) (published : list Publication) : Prop :=
  map fst published = subscribers s /\
  Forall (fun p => snd p = WorkCentricLocationService.snapshot s) published.

(** A registry for the boundary of the staleness sweep: [device-a] reported
    at 1000 ms, [device-b] at 1002 ms, [device-c] never; one subscriber. *)
Definition reported (deviceId : string) (at_ms : Z) : Device :=
  {| dev_id := deviceId; dev_name := "Worker"; dev_position := Some sampleOrigin;
     dev_lastUpdate := Some at_ms; dev_isOnline := true; dev_accuracy := 5;
     dev_workRole := "worker"; dev_emergencyResponder := false;
     dev_lastEmergencyUpdate := None |}.

Definition neverReported (deviceId : string) : Device :=
  {| dev_id := deviceId; dev_name := "Worker"; dev_position := None;
     dev_lastUpdate := None; dev_isOnline := true; dev_accuracy := 0;
     dev_workRole := "worker"; dev_emergencyResponder := false;
     dev_lastEmergencyUpdate := None |}.

Definition sweepSample : Service :=
  withDevices oneSubscriber
    [ ("device-a"%string, reported "device-a" 1000);
      ("device-b"%string, reported "device-b" 1002);
      ("device-c"%string, neverReported "device-c") ].

(** ** The tracker component: route selection (App.jsx, lines 530-539,
    589-598 and 680-688)

    The component keeps [selectedRoute] and [autoRouting] as React state; the
    functions below give the value [setSelectedRoute] is called with, or the
    old value when it is not called.  The status line ([setRoutingStatus]) is
    display text and is left out. *)

Module OptimizedHospitalTracker.

(** [hospital.id] of a hospital merged with its route. *)
Definition routeId (r : HospitalRoute) : string := hosp_id (hr_dest r).

(** The callback given to [locationService.subscribe] (lines 531-539). *)
Definition onSnapshot (selectedRoute : option HospitalRoute) (autoRouting : bool)
    (data : NetworkSnapshot) : option HospitalRoute :=
  let otherwise :=
    match snap_emergencyRoute data, selectedRoute with
    | Some emergencyRoute, None => Some emergencyRoute
    | _, _ => selectedRoute
    end in
  match snap_shortestRoute data with
  | Some shortestRoute =>
      if autoRouting
         && match selectedRoute with
            | None => true
            | Some selected =>
                negb (String.eqb (routeId selected) (routeId shortestRoute))
            end
      then Some shortestRoute
      else otherwise
  | None => otherwise
  end.

(** The [setTimeout] callback of the location handler (lines 589-598). *)
Definition autoSelectAfterUpdate (selectedRoute : option HospitalRoute)
    (autoRouting : bool) (networkData : NetworkSnapshot) : option HospitalRoute :=
  if autoRouting && (0 <? length (snap_hospitalRoutes networkData))%nat then
    match snap_hospitalRoutes networkData with
    | shortest :: _ =>
        match selectedRoute with
        | None => Some shortest
        | Some selected =>
            if Rltb (hr_roadDistance shortest) (hr_roadDistance selected)
            then Some shortest else selectedRoute
        end
    | [] => selectedRoute
    end
  else selectedRoute.

(** [selectShortestRoute] (lines 680-688): [reduce] without an initial value
    starts from the first element. *)
Definition selectShortestRoute (selectedRoute : option HospitalRoute)
    (networkData : NetworkSnapshot) : option HospitalRoute :=
  match snap_hospitalRoutes networkData with
  | first :: rest =>
      Some (fold_left
              (fun shortest current =>
                 if Rltb (hr_roadDistance current) (hr_roadDistance shortest)
                 then current else shortest)
              rest first)
  | [] => selectedRoute
  end.

End OptimizedHospitalTracker.

(** ** Runs of the service

    The public operations of [locationService] as calls, and the service
    after a sequence of calls on a new instance. *)

Inductive Call :=
| CallUpdateHospitals (latitude longitude radiusKm : R)
    (directory : OverpassReply) (routing : nat -> OsrmReply)
| CallSetEmergencyMode (enabled : bool)
| CallRegisterDevice (deviceId deviceName workRole : string)
| CallUpdateDeviceLocation (deviceId : string) (position : LatLng) (accuracy : R)
    (now : Z) (directory : OverpassReply) (routing : nat -> OsrmReply)
| CallTimerFires
| CallSubscribe (callback : Callback)
| CallUnsubscribe (callback : Callback)
| CallRemoveDevice (deviceId : string)
| CallSetNetworkTopology (topology : string)
| CallMarkOfflineIfStale (now : Z).

Definition call (s : Service) (c : Call) : Service * list Publication :=
  match c with
  | CallUpdateHospitals latitude longitude radiusKm directory routing =>
      WorkCentricLocationService.updateHospitals
        s latitude longitude radiusKm directory routing
  | CallSetEmergencyMode enabled =>
      WorkCentricLocationService.setEmergencyMode s enabled
  | CallRegisterDevice deviceId deviceName workRole =>
      WorkCentricLocationService.registerDevice s deviceId deviceName workRole
  | CallUpdateDeviceLocation deviceId position accuracy now directory routing =>
      WorkCentricLocationService.updateDeviceLocation
        s deviceId position accuracy now directory routing
  | CallTimerFires => WorkCentricLocationService.timerFires s
  | CallSubscribe callback => (WorkCentricLocationService.subscribe s callback, [])
  | CallUnsubscribe callback => (WorkCentricLocationService.unsubscribe s callback, [])
  | CallRemoveDevice deviceId => WorkCentricLocationService.removeDevice s deviceId
  | CallSetNetworkTopology topology =>
      WorkCentricLocationService.setNetworkTopology s topology
  | CallMarkOfflineIfStale now => WorkCentricLocationService.markOfflineIfStale s now
  end.

(** The service after the calls [cs], made in order on [s]. *)
Definition run (s : Service) (cs : list Call) : Service :=
  fold_left (fun s c => fst (call s c)) cs s.

(** The states a new service can be in. *)
Definition reachable (s : Service) : Prop :=
  exists cs : list Call, s = run WorkCentricLocationService.new cs.

(** ** Predicates used in the further statements *)

(** The registry holds at most one device per id, under its own id. *)
Definition wellKeyed (registry : list (string * Device)) : Prop :=
  NoDup (map fst registry) /\
  Forall (fun e => dev_id (snd e) = fst e) registry.

(** A device has a position exactly when it has a time of last update. *)
Definition reportedOrNot (d : Device) : Prop :=
  dev_position d = None <-> dev_lastUpdate d = None.

(** The urgency score of [updateHospitals] (lines 309-310). *)
Definition urgencyScore (r : HospitalRoute) : R :=
  IZR (hosp_workPriority (hr_dest r)) + 20 / (hr_roadDistance r + 0.1).

(** Both ends of a connection are online positioned devices of the registry,
    up to the role fields. *)
Definition anchored (registry : list (string * Device)) (c : Connection) : Prop :=
  (exists d, In d (filter usable (map snd registry)) /\ sameButRole (conn_from c) d) /\
  (exists d, In d (filter usable (map snd registry)) /\ sameButRole (conn_to c) d).

(** A clinic node near the sample origin. *)
Definition clinicNode : OsmElement :=
  {| el_type := "node"; el_id := 42; el_lat := Some 22.6; el_lon := Some 88.27;
     el_center := None; el_nodes := None;
     el_tags := Some [("amenity", "clinic"); ("wheelchair", "yes")]%string |}.

(** A hospital mapped as a way, delivered without [center]. *)
Definition wayWithoutCenter : OsmElement :=
  {| el_type := "way"; el_id := 77; el_lat := Some 22.6; el_lon := Some 88.27;
     el_center := None; el_nodes := Some [1; 2; 3]%Z;
     el_tags := Some [("amenity", "hospital")]%string |}.



(** The registry is well keyed and position and time of last update come
    together. *)
Definition registryOk (registry : list (string * Device)) : Prop :=
  wellKeyed registry /\ Forall (fun e => reportedOrNot (snd e)) registry.

(** The device object [registerDevice] creates. *)
Definition freshDevice (deviceId deviceName workRole : string) : Device :=
  {| dev_id := deviceId;
     dev_name := deviceName;
     dev_position := None;
     dev_lastUpdate := None;
     dev_isOnline := true;
     dev_accuracy := 0;
     dev_workRole := workRole;
     dev_emergencyResponder := false;
     dev_lastEmergencyUpdate := None |}.

(** The stored routes: the selected route is the first one, there are at
    most five, in descending order of the urgency score. *)
Definition routesOk (s : Service) : Prop :=
  autoSelectShortestRoute s = WorkCentricLocationService.getEmergencyRoute s /\
  (length (hospitalRoutes s) <= 5)%nat /\
  Sorted (fun x y => urgencyScore y <= urgencyScore x) (hospitalRoutes s).

(** The stored connections fit the registry: every connection is anchored,
    and there is none when fewer than two devices are online and positioned. *)
Definition topologyOk (registry : list (string * Device)) (conns : list Connection)
    : Prop :=
  Forall (anchored registry) conns /\
  ((length (filter usable (map snd registry)) < 2)%nat -> conns = []).
(** * Properties *)

(** ** RoutingOrchestrator *)

(** On every failure of the provider [getRoute] returns the straight line
    from origin to destination, without steps, flagged [isFallback]. *)
Lemma getRoute_failure_shape (fromLat fromLng toLat toLng : R) (profile : string)
    (reply : OsrmReply) :
  RouteFailure reply ->
  let r := RoutingService.getRoute fromLat fromLng toLat toLng profile reply in
  rt_coordinates r = [(fromLat, fromLng); (toLat, toLng)] /\
  rt_steps r = [] /\
  rt_isFallback r = true.
Proof.
  intros Hfail. destruct Hfail; cbn; repeat split.
Qed.

(** ** HospitalRanker: entries on the equator or the prime meridian *)

Lemma falsy_num_zero : falsy_num (Some 0) = true.
Proof.
  unfold falsy_num. destruct (Req_dec_T 0 0) as [_ | H]; [ reflexivity | ].
  exfalso. apply H. reflexivity.
Qed.

Lemma dropNull_app {A : Type} (l1 l2 : list (option A)) :
  WorkCentricHospitalService.dropNull (l1 ++ l2) =
  WorkCentricHospitalService.dropNull l1 ++ WorkCentricHospitalService.dropNull l2.
Proof.
  induction l1 as [| [x |] l1 IH]; cbn; [ reflexivity | rewrite IH; reflexivity | exact IH ].
Qed.

Lemma toHospital_zero_coordinate (latitude longitude : R) (element : OsmElement)
    (olat olon : option R) :
  WorkCentricHospitalService.resolve element = Some (olat, olon) ->
  olat = Some 0 \/ olon = Some 0 ->
  WorkCentricHospitalService.toHospital latitude longitude element = None.
Proof.
  intros Hres Hzero. unfold WorkCentricHospitalService.toHospital.
  rewrite Hres.
  destruct Hzero as [-> | ->].
  - rewrite falsy_num_zero. reflexivity.
  - rewrite falsy_num_zero, orb_true_r. reflexivity.
Qed.

(** C10.  A directory entry whose resolved latitude or longitude is exactly 0
    is mapped to [null] and dropped: the ranking is the one of the reply
    without that entry. *)
Theorem zero_coordinate_entry_dropped :
  forall (latitude longitude radiusKm : R) (element : OsmElement)
         (olat olon : option R) (before after : list OsmElement),
    WorkCentricHospitalService.resolve element = Some (olat, olon) ->
    olat = Some 0 \/ olon = Some 0 ->
    WorkCentricHospitalService.toHospital latitude longitude element = None /\
    WorkCentricHospitalService.findNearbyHospitals latitude longitude radiusKm
      (OverpassBody (Some (before ++ element :: after))) =
    WorkCentricHospitalService.findNearbyHospitals latitude longitude radiusKm
      (OverpassBody (Some (before ++ after))).
Proof.
  intros latitude longitude radiusKm element olat olon before after Hres Hzero.
  pose proof (toHospital_zero_coordinate latitude longitude element olat olon Hres Hzero)
    as Hnull.
  split; [ exact Hnull | ].
  unfold WorkCentricHospitalService.findNearbyHospitals,
    WorkCentricHospitalService.findNearbyHospitals_try.
  rewrite !map_app, !dropNull_app. cbn [map]. rewrite Hnull. reflexivity.
Qed.

Lemma zero_coordinate_entry_dropped_witness :
  WorkCentricHospitalService.resolve equatorNode = Some (Some 0, Some 100.5) /\
  WorkCentricHospitalService.findNearbyHospitals 0.01 100.5 2
    (OverpassBody (Some ([] ++ equatorNode :: []))) =
  WorkCentricHospitalService.findNearbyHospitals 0.01 100.5 2
    (OverpassBody (Some ([] ++ []))).
Proof.
  split.
  - reflexivity.
  - exact (proj2 (zero_coordinate_entry_dropped 0.01 100.5 2 equatorNode
                    (Some 0) (Some 100.5) [] [] eq_refl (or_introl eq_refl))).
Defined.

(** ** TopologyEngine: the size of the mst topology *)

Lemma mstLoop_bound (target : Z) (paths : list Connection) :
  forall (mst : list Connection) (connectedNodes : list string),
    (Z.of_nat (length mst) < target)%Z ->
    (Z.of_nat (length (OptimizedNetworkPathfinder.mstLoop target paths mst connectedNodes))
     <= target)%Z.
Proof.
  induction paths as [| path rest IH]; intros mst connectedNodes Hlt; cbn.
  - lia.
  - destruct (negb _ || negb _).
    + destruct (Z.eqb_spec (Z.of_nat (length (mst ++ [path]))) target) as [Heq | Hne].
      * lia.
      * apply IH. rewrite length_app in *. cbn in *. lia.
    + apply IH. exact Hlt.
Qed.

Lemma findWorkOptimalPaths_nonempty (devices : list Device) (hospitals : list Hospital) :
  OptimizedNetworkPathfinder.findWorkOptimalPaths devices hospitals <> [] ->
  (2 <= length (filter usable devices))%nat.
Proof.
  unfold OptimizedNetworkPathfinder.findWorkOptimalPaths.
  destruct (Nat.ltb_spec (length (filter usable devices)) 2) as [Hlt | Hge].
  - intros H. exfalso. apply H. reflexivity.
  - intros _. exact Hge.
Qed.

(** The loop stops at [n - 1] accepted edges, and there is no edge at all
    when [n < 2]. *)
Lemma findMinimumSpanningTree_bound (devices : list Device) (hospitals : list Hospital) :
  (length (OptimizedNetworkPathfinder.findMinimumSpanningTree devices hospitals)
   <= Nat.max 0 (length (filter usable devices) - 1))%nat.
Proof.
  unfold OptimizedNetworkPathfinder.findMinimumSpanningTree.
  destruct (OptimizedNetworkPathfinder.findWorkOptimalPaths devices hospitals)
    as [| p ps] eqn:Hpaths.
  - cbn. lia.
  - assert (Hn : (2 <= length (filter usable devices))%nat).
    { apply (findWorkOptimalPaths_nonempty devices hospitals).
      rewrite Hpaths. discriminate. }
    match goal with
    | |- (length (OptimizedNetworkPathfinder.mstLoop ?t ?ps ?m ?c) <= _)%nat =>
        pose proof (mstLoop_bound t ps m c) as Hb
    end.
    cbn [length] in Hb. lia.
Qed.

(** ** DeviceRegistry: updates for unknown devices *)

(** C8.  A location update for an id that is not registered changes nothing:
    the service state is the same, no device is created and nothing is
    published. *)
Theorem updateDeviceLocation_unknown_noop :
  forall (s : Service) (deviceId : string) (position : LatLng) (accuracy : R)
         (now : Z) (directory : OverpassReply) (routing : nat -> OsrmReply),
    map_get deviceId (devices s) = None ->
    WorkCentricLocationService.updateDeviceLocation
      s deviceId position accuracy now directory routing = (s, []).
Proof.
  intros s deviceId position accuracy now directory routing Hunknown.
  unfold WorkCentricLocationService.updateDeviceLocation.
  rewrite Hunknown. reflexivity.
Qed.

Lemma updateDeviceLocation_unknown_noop_witness :
  map_get "device-9" (devices WorkCentricLocationService.new) = None /\
  WorkCentricLocationService.updateDeviceLocation
    WorkCentricLocationService.new "device-9" (22.5958, 88.2636) 5 1000
    OverpassNotOk (fun _ => OsrmNotOk)
  = (WorkCentricLocationService.new, []).
Proof.
  split.
  - reflexivity.
  - exact (updateDeviceLocation_unknown_noop WorkCentricLocationService.new
             "device-9" (22.5958, 88.2636) 5 1000 OverpassNotOk
             (fun _ => OsrmNotOk) eq_refl).
Defined.

(** ** Topology rebuild: what it leaves alone *)

Lemma sameButRole_refl (d : Device) : sameButRole d d.
Proof. unfold sameButRole. repeat split. Qed.

Lemma sameButRole_trans (a b c : Device) :
  sameButRole a b -> sameButRole b c -> sameButRole a c.
Proof.
  unfold sameButRole.
  intros (A1 & A2 & A3 & A4 & A5 & A6 & A7) (B1 & B2 & B3 & B4 & B5 & B6 & B7).
  repeat split; congruence.
Qed.

Lemma sameButRole_setRole (d : Device) (role : string) (responder : bool) :
  sameButRole d (setRole d role responder).
Proof. unfold sameButRole. repeat split. Qed.

Lemma sameButRole_usable (d d' : Device) :
  sameButRole d d' -> usable d' = usable d.
Proof.
  unfold sameButRole, usable.
  intros (_ & _ & Hpos & _ & Hon & _). rewrite Hpos, Hon. reflexivity.
Qed.

Lemma update_nth_Forall2 {A : Type} (rel : A -> A -> Prop) (f : A -> A) :
  (forall a b, rel a b -> rel a (f b)) ->
  forall (i : nat) (l l' : list A),
    Forall2 rel l l' -> Forall2 rel l (update_nth i f l').
Proof.
  intros Hf i l l' H. revert i.
  induction H as [| a b l l' Hab Hrest IH]; intros i; cbn.
  - constructor.
  - destruct i as [| i].
    + constructor; [ apply Hf; exact Hab | exact Hrest ].
    + constructor; [ exact Hab | apply IH ].
Qed.

Lemma assignWorkRoles_sameButRole (hospitals : list Hospital) (devices : list Device) :
  Forall2 sameButRole devices
    (WorkCentricLocationService.assignWorkRoles hospitals devices).
Proof.
  assert (Hreset : Forall2 sameButRole devices
                     (map (fun device => setRole device "worker" false) devices)).
  { induction devices as [| d ds IH]; cbn; constructor;
      [ apply sameButRole_setRole | exact IH ]. }
  unfold WorkCentricLocationService.assignWorkRoles.
  destruct hospitals as [| nearestHospital hs]; [ exact Hreset | ].
  destruct (map (fun device => setRole device "worker" false) devices)
    as [| first rest] eqn:Hmap; [ exact Hreset | ].
  apply update_nth_Forall2; [ | exact Hreset ].
  intros a b Hab. eapply sameButRole_trans; [ exact Hab | apply sameButRole_setRole ].
Qed.

Lemma writeBack_rebuilt (registry : list (string * Device)) :
  forall updated : list Device,
    Forall2 sameButRole (filter usable (map snd registry)) updated ->
    Forall2 rebuiltEntry registry (writeBack registry updated).
Proof.
  induction registry as [| [k d] rest IH]; intros updated H; cbn in *.
  - constructor.
  - destruct (usable d) eqn:Hu.
    + inversion H as [| a b l l' Hab Hrest]; subst.
      constructor; [ | apply IH; exact Hrest ].
      unfold rebuiltEntry; cbn. repeat split; try apply Hab.
      intros Hno. congruence.
    + constructor; [ | apply IH; exact H ].
      unfold rebuiltEntry; cbn. repeat split.
Qed.

Lemma rebuiltEntry_refl (e : string * Device) : rebuiltEntry e e.
Proof.
  unfold rebuiltEntry. repeat split.
Qed.

Lemma Forall2_refl {A : Type} (rel : A -> A -> Prop) :
  (forall a, rel a a) -> forall l, Forall2 rel l l.
Proof. intros Hr l. induction l; constructor; auto. Qed.

Lemma updateNetworkTopology_devices (s : Service) :
  Forall2 rebuiltEntry (devices s)
    (devices (WorkCentricLocationService.updateNetworkTopology s)).
Proof.
  unfold WorkCentricLocationService.updateNetworkTopology.
  destruct (length (filter usable (map snd (devices s))) <? 2)%nat.
  - cbn. apply Forall2_refl. apply rebuiltEntry_refl.
  - cbn. apply writeBack_rebuilt. apply assignWorkRoles_sameButRole.
Qed.

(** ** DeviceRegistry: the staleness sweep *)

Lemma stale_spec (now : Z) (d : Device) :
  WorkCentricLocationService.stale now d = true <->
  exists t, dev_lastUpdate d = Some t /\ (now - t > 30000)%Z.
Proof.
  unfold WorkCentricLocationService.stale.
  destruct (dev_lastUpdate d) as [t |].
  - rewrite Z.ltb_lt. split.
    + intros H. exists t. split; [ reflexivity | lia ].
    + intros (t' & Heq & Hgt). injection Heq as ->. lia.
  - split; [ discriminate | intros (t & Heq & _); discriminate ].
Qed.

(** What the loop of the sweep does to one entry. *)
Lemma sweep_entries (now : Z) (entries : list (string * Device)) :
  forall changed : bool,
    Forall2 (fun e e' =>
               e' = (fst e,
                     if WorkCentricLocationService.stale now (snd e)
                        && dev_isOnline (snd e)
                     then setOnline (snd e) false else snd e))
            entries
            (fst (WorkCentricLocationService.sweep now entries changed)).
Proof.
  induction entries as [| [k d] rest IH]; intros changed; cbn.
  - constructor.
  - destruct (WorkCentricLocationService.stale now d) eqn:Hs;
      [ destruct (dev_isOnline d) eqn:Ho | ].
    + specialize (IH true).
      destruct (WorkCentricLocationService.sweep now rest true); cbn in *.
      constructor; [ cbn [fst snd]; rewrite ?Hs, ?Ho; reflexivity | exact IH ].
    + specialize (IH changed).
      destruct (WorkCentricLocationService.sweep now rest changed); cbn in *.
      constructor; [ cbn [fst snd]; rewrite ?Hs, ?Ho; reflexivity | exact IH ].
    + specialize (IH changed).
      destruct (WorkCentricLocationService.sweep now rest changed); cbn in *.
      constructor; [ cbn [fst snd]; rewrite ?Hs, ?Ho; reflexivity | exact IH ].
Qed.

(** The flag [changed] is set exactly when some online device was stale. *)
Lemma sweep_changed (now : Z) (entries : list (string * Device)) :
  forall changed : bool,
    snd (WorkCentricLocationService.sweep now entries changed) =
    changed
    || existsb (fun e => WorkCentricLocationService.stale now (snd e)
                         && dev_isOnline (snd e)) entries.
Proof.
  induction entries as [| [k d] rest IH]; intros changed; cbn.
  - rewrite orb_false_r. reflexivity.
  - destruct (WorkCentricLocationService.stale now d) eqn:Hs;
      [ destruct (dev_isOnline d) eqn:Ho | ]; cbn.
    + specialize (IH true).
      destruct (WorkCentricLocationService.sweep now rest true); cbn in *.
      rewrite IH, orb_true_r. reflexivity.
    + specialize (IH changed).
      destruct (WorkCentricLocationService.sweep now rest changed); cbn in *.
      exact IH.
    + specialize (IH changed).
      destruct (WorkCentricLocationService.sweep now rest changed); cbn in *.
      exact IH.
Qed.

Lemma Forall2_compose {A : Type} (r1 r2 r3 : A -> A -> Prop) :
  (forall a b c, r1 a b -> r2 b c -> r3 a c) ->
  forall l1 l2 l3, Forall2 r1 l1 l2 -> Forall2 r2 l2 l3 -> Forall2 r3 l1 l3.
Proof.
  intros Hc l1 l2 l3 H12. revert l3.
  induction H12 as [| a b l1 l2 Hab H12 IH]; intros l3 H23;
    inversion H23; subst; constructor; eauto.
Qed.

(** One entry through the loop of the sweep and a rebuild of the topology. *)
Lemma sweptEntry_compose (now : Z) (e e1 e2 : string * Device) :
  e1 = (fst e,
        if WorkCentricLocationService.stale now (snd e) && dev_isOnline (snd e)
        then setOnline (snd e) false else snd e) ->
  rebuiltEntry e1 e2 ->
  sweptEntry now e e2.
Proof.
  destruct e as [k d]. cbn [fst snd]. intros -> (Hk & Hsame & Hkeep).
  destruct Hsame as (_ & _ & Hpos & Hlu & Hon & _).
  cbn [fst snd] in *.
  assert (Hlu' : dev_lastUpdate (snd e2) = dev_lastUpdate d).
  { rewrite Hlu. destruct (_ && _); reflexivity. }
  assert (Hon' : dev_isOnline (snd e2) =
                 dev_isOnline d && negb (WorkCentricLocationService.stale now d)).
  { rewrite Hon.
    destruct (WorkCentricLocationService.stale now d), (dev_isOnline d) eqn:Ho;
      cbn; try rewrite Ho; reflexivity. }
  unfold sweptEntry. cbn [fst snd].
  split; [ exact Hk | ]. split; [ exact Hlu' | ].
  split; [ | split; [ | split ] ].
  - rewrite Hon'. rewrite andb_false_iff, negb_false_iff, (stale_spec now d).
    reflexivity.
  - intros Hb. rewrite Hon'.
    assert (WorkCentricLocationService.stale now d = true) as ->.
    { apply stale_spec. exists (now - 30001)%Z. split; [ exact Hb | lia ]. }
    apply andb_false_r.
  - intros Hb. rewrite Hon'.
    destruct (WorkCentricLocationService.stale now d) eqn:Hs.
    + apply stale_spec in Hs. destruct Hs as (t & Heq & Hgt).
      rewrite Hb in Heq. injection Heq as <-. lia.
    + apply andb_true_r.
  - intros Hnone.
    assert (Hs : WorkCentricLocationService.stale now d = false).
    { unfold WorkCentricLocationService.stale. rewrite Hnone. reflexivity. }
    rewrite Hs in *. cbn [andb snd] in *.
    split; [ rewrite Hon'; apply andb_true_r | ].
    intros Hp. apply Hkeep. unfold usable. rewrite Hp. reflexivity.
Qed.

Lemma withDevices_same (s : Service) : withDevices s (devices s) = s.
Proof. destruct s. reflexivity. Qed.

Lemma sweep_nothing_stale (now : Z) (entries : list (string * Device)) :
  existsb (fun e => WorkCentricLocationService.stale now (snd e)
                    && dev_isOnline (snd e)) entries = false ->
  fst (WorkCentricLocationService.sweep now entries false) = entries.
Proof.
  intros Hnone.
  pose proof (sweep_entries now entries false) as H.
  revert H Hnone.
  generalize (fst (WorkCentricLocationService.sweep now entries false)) as out.
  induction entries as [| [k d] rest IH]; intros out H Hnone;
    inversion H as [| a b l l' Hab Hrest]; subst; [ reflexivity | ].
  cbn in Hnone. apply orb_false_iff in Hnone. destruct Hnone as [Hd Hr].
  cbn [fst snd]. rewrite Hd. f_equal. apply IH; assumption.
Qed.

(** A device that was online and stale is offline afterwards, so the
    [isOnline] flags cannot all be the same. *)
Lemma swept_flags_differ (now : Z) (l l' : list (string * Device)) :
  Forall2 (sweptEntry now) l l' ->
  existsb (fun e => WorkCentricLocationService.stale now (snd e)
                    && dev_isOnline (snd e)) l = true ->
  map (fun e => dev_isOnline (snd e)) l' <> map (fun e => dev_isOnline (snd e)) l.
Proof.
  induction 1 as [| e e' l l' He Hrest IH]; cbn; [ discriminate | ].
  intros Hex Heq. injection Heq as Hhd Htl.
  apply orb_true_iff in Hex. destruct Hex as [Hhere | Hthere].
  - apply andb_true_iff in Hhere. destruct Hhere as [Hs Ho].
    destruct He as (_ & _ & Hiff & _).
    assert (dev_isOnline (snd e') = false) as Hoff.
    { apply Hiff. right. apply stale_spec. exact Hs. }
    congruence.
  - exact (IH Hthere Htl).
Qed.

(** C7.  The staleness sweep run at [now] turns offline exactly the devices
    whose [lastUpdate] is more than 30000 ms before [now] (30001 ms: offline;
    29999 ms: as before); a device without [lastUpdate] keeps its state; and
    when no device changes its online state, nothing is published and the
    service is as it was. *)
Theorem markOfflineIfStale_sweep :
  forall (s : Service) (now : Z),
    let s' := fst (WorkCentricLocationService.markOfflineIfStale s now) in
    let published := snd (WorkCentricLocationService.markOfflineIfStale s now) in
    Forall2 (sweptEntry now) (devices s) (devices s') /\
    (onlineFlags s' = onlineFlags s -> published = [] /\ s' = s).
Proof.
  intros s now. cbv zeta.
  assert (Hentries : Forall2 (sweptEntry now) (devices s)
            (devices (fst (WorkCentricLocationService.markOfflineIfStale s now)))).
  { unfold WorkCentricLocationService.markOfflineIfStale.
    pose proof (sweep_entries now (devices s) false) as Hsw.
    destruct (WorkCentricLocationService.sweep now (devices s) false)
      as [devices' changed]. cbn [fst] in Hsw.
    destruct changed; cbn [fst].
    - eapply Forall2_compose; [ apply (sweptEntry_compose now) | exact Hsw | ].
      apply (updateNetworkTopology_devices (withDevices s devices')).
    - eapply Forall2_compose; [ apply (sweptEntry_compose now) | exact Hsw | ].
      cbn. apply Forall2_refl. apply rebuiltEntry_refl. }
  split; [ exact Hentries | ].
  intros Hflags.
  destruct (existsb (fun e => WorkCentricLocationService.stale now (snd e)
                              && dev_isOnline (snd e)) (devices s)) eqn:Hex.
  - exfalso. exact (swept_flags_differ now _ _ Hentries Hex Hflags).
  - unfold WorkCentricLocationService.markOfflineIfStale.
    pose proof (sweep_changed now (devices s) false) as Hch.
    pose proof (sweep_nothing_stale now (devices s) Hex) as Hfst.
    destruct (WorkCentricLocationService.sweep now (devices s) false)
      as [devices' changed]. cbn [fst snd] in *.
    rewrite Hex in Hch. cbn in Hch. subst changed devices'.
    cbn [fst snd]. rewrite withDevices_same. split; reflexivity.
Qed.

(** ** HospitalRanker: the synthetic fallback list *)

Lemma js_insert_nil {A : Type} (cmp : A -> A -> R) (x : A) :
  js_insert cmp x [] = [x].
Proof. reflexivity. Qed.

Lemma js_insert_le {A : Type} (cmp : A -> A -> R) (x y : A) (ys : list A) :
  cmp x y <= 0 -> js_insert cmp x (y :: ys) = x :: y :: ys.
Proof.
  intros H. cbn. destruct (Rle_dec (cmp x y) 0); [ reflexivity | contradiction ].
Qed.

Lemma js_insert_gt {A : Type} (cmp : A -> A -> R) (x y : A) (ys : list A) :
  0 < cmp x y -> js_insert cmp x (y :: ys) = y :: js_insert cmp x ys.
Proof.
  intros H. cbn. destruct (Rle_dec (cmp x y) 0); [ exfalso; lra | reflexivity ].
Qed.

(** The fallback list in the order [getFallbackHospitals] returns it. *)
Lemma getFallbackHospitals_explicit (latitude longitude : R) :
  WorkCentricHospitalService.getFallbackHospitals latitude longitude =
  [ WorkCentricHospitalService.toFallback latitude longitude
      {| WorkCentricHospitalService.seed_name := "Emergency Medical Center";
         WorkCentricHospitalService.seed_lat := latitude + 0.01;
         WorkCentricHospitalService.seed_lon := longitude + 0.01;
         WorkCentricHospitalService.seed_emergency := true |} 0;
    WorkCentricHospitalService.toFallback latitude longitude
      {| WorkCentricHospitalService.seed_name := "Regional Hospital";
         WorkCentricHospitalService.seed_lat := latitude - 0.01;
         WorkCentricHospitalService.seed_lon := longitude - 0.01;
         WorkCentricHospitalService.seed_emergency := true |} 3;
    WorkCentricHospitalService.toFallback latitude longitude
      {| WorkCentricHospitalService.seed_name := "General Hospital";
         WorkCentricHospitalService.seed_lat := latitude - 0.01;
         WorkCentricHospitalService.seed_lon := longitude + 0.01;
         WorkCentricHospitalService.seed_emergency := false |} 1;
    WorkCentricHospitalService.toFallback latitude longitude
      {| WorkCentricHospitalService.seed_name := "City Medical Center";
         WorkCentricHospitalService.seed_lat := latitude + 0.01;
         WorkCentricHospitalService.seed_lon := longitude - 0.01;
         WorkCentricHospitalService.seed_emergency := false |} 2 ].
Proof.
  unfold WorkCentricHospitalService.getFallbackHospitals,
    WorkCentricHospitalService.fallbackSeeds, mapi.
  cbn [mapi_from js_sort].
  rewrite js_insert_nil.
  rewrite js_insert_gt
    by (unfold WorkCentricHospitalService.fallbackCompare; cbn; lra).
  rewrite js_insert_nil.
  rewrite js_insert_gt
    by (unfold WorkCentricHospitalService.fallbackCompare; cbn; lra).
  rewrite js_insert_le
    by (unfold WorkCentricHospitalService.fallbackCompare; cbn; lra).
  rewrite js_insert_le
    by (unfold WorkCentricHospitalService.fallbackCompare; cbn; lra).
  reflexivity.
Qed.

Lemma findNearbyHospitals_failure (latitude longitude radiusKm : R)
    (reply : OverpassReply) :
  DirectoryFailure reply ->
  WorkCentricHospitalService.findNearbyHospitals latitude longitude radiusKm reply =
  WorkCentricHospitalService.getFallbackHospitals latitude longitude.
Proof. intros H. destruct H; reflexivity. Qed.

(** ** GeoMath: the distances of the four fallback facilities *)




(** ** HospitalRanker: order of the result *)

Section SortedInsertion.
Context {A : Type} (cmp : A -> A -> R) (ord : A -> A -> Prop).
Hypothesis cmp_le : forall x y, cmp x y <= 0 -> ord x y.
Hypothesis cmp_gt : forall x y, ~ cmp x y <= 0 -> ord y x.

Lemma js_insert_HdRel (a x : A) (l : list A) :
  ord a x -> HdRel ord a l -> HdRel ord a (js_insert cmp x l).
Proof.
  intros Hax Hal. destruct l as [| y ys]; cbn.
  - constructor. exact Hax.
  - destruct (Rle_dec (cmp x y) 0).
    + constructor. exact Hax.
    + constructor. inversion Hal; assumption.
Qed.

Lemma js_insert_Sorted (x : A) (l : list A) :
  Sorted ord l -> Sorted ord (js_insert cmp x l).
Proof.
  induction 1 as [| y ys Hys IH Hhd]; cbn.
  - constructor; constructor.
  - destruct (Rle_dec (cmp x y) 0) as [Hle | Hgt].
    + constructor; [ constructor; assumption | constructor; apply cmp_le; exact Hle ].
    + constructor; [ exact IH | ].
      apply js_insert_HdRel; [ apply cmp_gt; exact Hgt | exact Hhd ].
Qed.

Lemma js_sort_Sorted (l : list A) : Sorted ord (js_sort cmp l).
Proof.
  induction l as [| x xs IH]; cbn; [ constructor | apply js_insert_Sorted; exact IH ].
Qed.
End SortedInsertion.

Lemma js_insert_Permutation {A : Type} (cmp : A -> A -> R) (x : A) (l : list A) :
  Permutation (x :: l) (js_insert cmp x l).
Proof.
  induction l as [| y ys IH]; cbn; [ apply Permutation_refl | ].
  destruct (Rle_dec (cmp x y) 0); [ apply Permutation_refl | ].
  eapply perm_trans; [ apply perm_swap | apply perm_skip; exact IH ].
Qed.

Lemma js_sort_Permutation {A : Type} (cmp : A -> A -> R) (l : list A) :
  Permutation l (js_sort cmp l).
Proof.
  induction l as [| x xs IH]; cbn; [ constructor | ].
  eapply perm_trans; [ apply perm_skip; exact IH | apply js_insert_Permutation ].
Qed.

Lemma rankCompare_le (x y : Hospital) :
  WorkCentricHospitalService.rankCompare x y <= 0 -> rankOrder x y.
Proof.
  unfold WorkCentricHospitalService.rankCompare, rankOrder.
  destruct (Z.eqb_spec (hosp_workPriority y) (hosp_workPriority x)) as [Heq | Hne]; cbn.
  - intros H. right. split; [ congruence | lra ].
  - intros H. left. apply le_IZR in H. lia.
Qed.

Lemma rankCompare_gt (x y : Hospital) :
  ~ WorkCentricHospitalService.rankCompare x y <= 0 -> rankOrder y x.
Proof.
  unfold WorkCentricHospitalService.rankCompare, rankOrder.
  destruct (Z.eqb_spec (hosp_workPriority y) (hosp_workPriority x)) as [Heq | Hne]; cbn.
  - intros H. right. split; [ exact Heq | lra ].
  - intros H. left. apply Rnot_le_lt in H. apply lt_IZR in H. lia.
Qed.

(** The ranking of a directory reply holds exactly the entries that resolve
    to a hospital. *)
Lemma findNearbyHospitals_Permutation (latitude longitude radiusKm : R)
    (elements : list OsmElement) :
  Permutation
    (WorkCentricHospitalService.dropNull
       (map (WorkCentricHospitalService.toHospital latitude longitude) elements))
    (WorkCentricHospitalService.findNearbyHospitals latitude longitude radiusKm
       (OverpassBody (Some elements))).
Proof. apply js_sort_Permutation. Qed.


Lemma fallback_ranking_sorted (latitude longitude radiusKm : R) (reply : OverpassReply) :
  DirectoryFailure reply ->
  Sorted priorityOrder
    (WorkCentricHospitalService.findNearbyHospitals latitude longitude radiusKm reply).
Proof.
  intros Hfail.
  rewrite (findNearbyHospitals_failure _ _ _ _ Hfail).
  unfold WorkCentricHospitalService.getFallbackHospitals.
  apply js_sort_Sorted; unfold WorkCentricHospitalService.fallbackCompare, priorityOrder.
  - intros x y H. apply le_IZR in H. lia.
  - intros x y H. apply Rnot_le_lt in H. apply lt_IZR in H. lia.
Qed.




(** C4 (as the code has it).  When the directory query fails the ranker
    returns the same four synthetic facilities whatever the failure: offset
    by 0.01 degrees to the north-east, south-west, south-east and north-west
    of the origin, in that order, the first two flagged emergency with
    [workPriority] 10 and the last two not, with [workPriority] 5; each
    carries its great-circle distance to the origin, and the list is sorted
    by descending [workPriority]. *)
Theorem fallback_hospitals_on_failure :
  forall (latitude longitude radiusKm : R) (reply : OverpassReply),
    DirectoryFailure reply ->
    let l :=
      WorkCentricHospitalService.findNearbyHospitals latitude longitude radiusKm reply in
    l = WorkCentricHospitalService.getFallbackHospitals latitude longitude /\
    length l = 4%nat /\
    map hosp_position l =
      [ (latitude + 0.01, longitude + 0.01); (latitude - 0.01, longitude - 0.01);
        (latitude - 0.01, longitude + 0.01); (latitude + 0.01, longitude - 0.01) ] /\
    map hosp_emergency l = [true; true; false; false] /\
    map hosp_workPriority l = [10; 10; 5; 5]%Z /\
    map hosp_distance l =
      map (fun p => haversine latitude longitude (fst p) (snd p)) (map hosp_position l) /\
    Sorted priorityOrder l.
Proof.
  intros latitude longitude radiusKm reply Hfail. cbv zeta.
  split; [ apply findNearbyHospitals_failure; exact Hfail | ].
  split; [ | split; [ | split; [ | split; [ | split ] ] ] ];
    try (rewrite (findNearbyHospitals_failure _ _ _ _ Hfail),
           getFallbackHospitals_explicit; reflexivity).
  apply fallback_ranking_sorted. exact Hfail.
Qed.

Lemma fallback_hospitals_on_failure_witness :
  DirectoryFailure OverpassNotOk /\
  map hosp_emergency
    (WorkCentricHospitalService.findNearbyHospitals 22.5958 88.2636 2 OverpassNotOk)
  = [true; true; false; false].
Proof.
  split.
  - exact DF_not_ok.
  - exact (proj1 (proj2 (proj2 (proj2
      (fallback_hospitals_on_failure 22.5958 88.2636 2 OverpassNotOk DF_not_ok))))).
Defined.

(** C4, as stated, fails: the emergency flags of the fallback list do not
    alternate, neither in the order the list is returned nor in the order
    the four facilities are written down. *)
Lemma fallback_flags_not_alternating :
  ~ alternating
      (map hosp_emergency
         (WorkCentricHospitalService.findNearbyHospitals 22.5958 88.2636 2
            OverpassNetworkError)) /\
  ~ alternating
      (map WorkCentricHospitalService.seed_emergency
         (WorkCentricHospitalService.fallbackSeeds 22.5958 88.2636)).
Proof.
  split.
  - rewrite (findNearbyHospitals_failure _ _ _ _ DF_network).
    rewrite getFallbackHospitals_explicit. cbn.
    intros [H _]. apply H. reflexivity.
  - cbn. intros [_ [H _]]. apply H. reflexivity.
Qed.

(** ** CoordinationService: what is published *)

Lemma notifySubscribers_all (s : Service) :
  publishedToAll s (WorkCentricLocationService.notifySubscribers s).
Proof.
  unfold publishedToAll, WorkCentricLocationService.notifySubscribers. split.
  - rewrite map_map. cbn. apply map_id.
  - apply Forall_forall. intros p Hin. apply in_map_iff in Hin.
    destruct Hin as (c & <- & _). reflexivity.
Qed.

Lemma updateNetworkTopology_subscribers (s : Service) :
  subscribers (WorkCentricLocationService.updateNetworkTopology s) = subscribers s.
Proof.
  unfold WorkCentricLocationService.updateNetworkTopology.
  destruct (length (filter usable (map snd (devices s))) <? 2)%nat; reflexivity.
Qed.


(** Removing a device publishes the state without it to every subscriber. *)
Lemma removeDevice_published (s : Service) (deviceId : string) :
  let r := WorkCentricLocationService.removeDevice s deviceId in
  publishedToAll (fst r) (snd r) /\ subscribers (fst r) = subscribers s.
Proof.
  cbv zeta. unfold WorkCentricLocationService.removeDevice. cbn [fst snd].
  split; [ apply notifySubscribers_all | ].
  rewrite updateNetworkTopology_subscribers. reflexivity.
Qed.


(** A sweep that turned some device offline publishes to every subscriber. *)
Lemma markOfflineIfStale_published (s : Service) (now : Z) :
  let r := WorkCentricLocationService.markOfflineIfStale s now in
  onlineFlags (fst r) <> onlineFlags s ->
  publishedToAll (fst r) (snd r) /\ subscribers (fst r) = subscribers s.
Proof.
  cbv zeta. intros Hflags.
  destruct (existsb (fun e => WorkCentricLocationService.stale now (snd e)
                              && dev_isOnline (snd e)) (devices s)) eqn:Hex.
  - unfold WorkCentricLocationService.markOfflineIfStale in *.
    pose proof (sweep_changed now (devices s) false) as Hch.
    destruct (WorkCentricLocationService.sweep now (devices s) false)
      as [devices' changed]. cbn [fst snd] in *.
    rewrite Hex in Hch. cbn in Hch. subst changed. cbn [fst snd].
    split; [ apply notifySubscribers_all | ].
    rewrite updateNetworkTopology_subscribers. reflexivity.
  - exfalso. apply Hflags.
    unfold WorkCentricLocationService.markOfflineIfStale.
    pose proof (sweep_changed now (devices s) false) as Hch.
    pose proof (sweep_nothing_stale now (devices s) Hex) as Hfst.
    destruct (WorkCentricLocationService.sweep now (devices s) false)
      as [devices' changed]. cbn [fst snd] in *.
    rewrite Hex in Hch. cbn in Hch. subst changed devices'.
    cbn [fst]. rewrite withDevices_same. reflexivity.
Qed.

(** [registerDevice], [setNetworkTopology] and [setEmergencyMode] rebuild the
    topology and end without a call of [notifySubscribers]. *)
Lemma silent_mutators (s : Service) :
  (forall deviceId deviceName workRole,
      snd (WorkCentricLocationService.registerDevice s deviceId deviceName workRole) = []) /\
  (forall topology,
      snd (WorkCentricLocationService.setNetworkTopology s topology) = []) /\
  (forall enabled,
      snd (WorkCentricLocationService.setEmergencyMode s enabled) = []).
Proof. repeat split. Qed.

(** C1 at its failing input.  With one subscriber, changing the topology mode
    from emergency to mst, or registering a device, changes the service
    state and calls no subscriber. *)
Theorem mode_change_and_registration_not_published :
  subscribers oneSubscriber = [1%nat] /\
  networkTopology oneSubscriber = "emergency"%string /\
  networkTopology
    (fst (WorkCentricLocationService.setNetworkTopology oneSubscriber "mst"))
  = "mst"%string /\
  snd (WorkCentricLocationService.setNetworkTopology oneSubscriber "mst") = [] /\
  devices oneSubscriber = [] /\
  map fst
    (devices (fst (WorkCentricLocationService.registerDevice
                     oneSubscriber "device-1" "Worker-1" "worker")))
  = ["device-1"%string] /\
  snd (WorkCentricLocationService.registerDevice
         oneSubscriber "device-1" "Worker-1" "worker") = [].
Proof. repeat split. Qed.

(** ** TopologyEngine: role assignment *)

Lemma writeBack_filter (registry : list (string * Device)) :
  forall updated : list Device,
    Forall2 sameButRole (filter usable (map snd registry)) updated ->
    filter usable (map snd (writeBack registry updated)) = updated.
Proof.
  induction registry as [| [k d] rest IH]; intros updated H; cbn in *.
  - inversion H. reflexivity.
  - destruct (usable d) eqn:Hu.
    + inversion H as [| a b l l' Hab Hrest]; subst. cbn.
      rewrite (sameButRole_usable _ _ Hab), Hu. f_equal. apply IH. exact Hrest.
    + cbn. rewrite Hu. apply IH. exact H.
Qed.

(** The online positioned devices after a rebuild: untouched when there are
    fewer than two of them, otherwise the result of the role assignment. *)
Lemma updateNetworkTopology_roles (s : Service) :
  let online := filter usable (WorkCentricLocationService.getAllDevices s) in
  filter usable
    (WorkCentricLocationService.getAllDevices
       (WorkCentricLocationService.updateNetworkTopology s)) =
  if (length online <? 2)%nat then online
  else WorkCentricLocationService.assignWorkRoles (hospitals s) online.
Proof.
  cbv zeta.
  unfold WorkCentricLocationService.updateNetworkTopology,
    WorkCentricLocationService.getAllDevices.
  destruct (length (filter usable (map snd (devices s))) <? 2)%nat.
  - reflexivity.
  - cbn. apply writeBack_filter. apply assignWorkRoles_sameButRole.
Qed.

Lemma reset_no_responder (devices : list Device) :
  filter dev_emergencyResponder
    (map (fun device => setRole device "worker" false) devices) = [].
Proof. induction devices as [| d ds IH]; cbn; [ reflexivity | exact IH ]. Qed.

Lemma promote_one_responder (devices : list Device) :
  forall i : nat,
    (i < length devices)%nat ->
    length
      (filter dev_emergencyResponder
         (update_nth i (fun d => setRole d "emergency-responder" true)
            (map (fun device => setRole device "worker" false) devices))) = 1%nat.
Proof.
  induction devices as [| d ds IH]; intros i Hi; cbn in *; [ lia | ].
  destruct i as [| i]; cbn.
  - rewrite reset_no_responder. reflexivity.
  - apply IH. lia.
Qed.

(** The second loop of [assignWorkRoles]: after the entries [rest] that
    follow the prefix [done], the running index points at a device whose
    distance is the running distance and is minimal so far. *)
Lemma roleFold_min (hospitalPos : LatLng) (rest : list Device) :
  forall (done : list Device) (i : nat) (m : R) (di : Device),
    nth_error (done ++ rest) i = Some di ->
    m = distTo di hospitalPos ->
    (forall d, In d done -> m <= distTo d hospitalPos) ->
    let r := fold_left (WorkCentricLocationService.roleStep hospitalPos)
               (combine (seq (length done) (length rest)) rest) (i, m) in
    exists dr,
      nth_error (done ++ rest) (fst r) = Some dr /\
      snd r = distTo dr hospitalPos /\
      (forall d, In d (done ++ rest) -> snd r <= distTo d hospitalPos).
Proof.
  induction rest as [| d rest IH]; intros done i m di Hnth Hm Hmin; cbn.
  - exists di. rewrite app_nil_r in *. split; [ exact Hnth | ]. split; assumption.
  - remember (WorkCentricLocationService.roleStep hospitalPos (i, m) (length done, d))
      as acc eqn:Hacc.
    unfold WorkCentricLocationService.roleStep, Rltb in Hacc. cbn [fst snd] in Hacc.
    replace (done ++ d :: rest) with ((done ++ [d]) ++ rest) in *
      by (rewrite <- app_assoc; reflexivity).
    replace (S (length done)) with (length (done ++ [d]))
      by (rewrite length_app; cbn; lia).
    destruct (Rlt_dec (distTo d hospitalPos) m) as [Hlt | Hge]; subst acc.
    + refine (IH (done ++ [d]) (length done) (distTo d hospitalPos) d _ eq_refl _).
      * rewrite nth_error_app1 by (rewrite length_app; cbn; lia).
        rewrite nth_error_app2 by lia. rewrite Nat.sub_diag. reflexivity.
      * intros d' Hin. apply in_app_or in Hin. destruct Hin as [Hin | [<- | []]].
        -- specialize (Hmin d' Hin). lra.
        -- lra.
    + refine (IH (done ++ [d]) i m di Hnth Hm _).
      intros d' Hin. apply in_app_or in Hin. destruct Hin as [Hin | [<- | []]].
      * exact (Hmin d' Hin).
      * lra.
Qed.

Lemma update_nth_In {A : Type} (f : A -> A) (l : list A) :
  forall (i : nat) (r : A),
    In r (update_nth i f l) ->
    In r l \/ exists x, nth_error l i = Some x /\ r = f x.
Proof.
  induction l as [| a l IH]; intros i r Hin; cbn in *; [ contradiction | ].
  destruct i as [| i]; cbn in *.
  - destruct Hin as [<- | Hin]; [ right; exists a; split; reflexivity | left; right; exact Hin ].
  - destruct Hin as [<- | Hin]; [ left; left; reflexivity | ].
    destruct (IH i r Hin) as [H | H]; [ left; right; exact H | right; exact H ].
Qed.

(** Role assignment, when it runs with at least one facility and one device:
    exactly one device is the responder, it carries the role
    emergency-responder and no device is nearer to the top-ranked facility;
    every other device is a worker. *)
Lemma assignWorkRoles_with_facility (nearest : Hospital) (others : list Hospital)
    (devices : list Device) :
  devices <> [] ->
  let result := WorkCentricLocationService.assignWorkRoles (nearest :: others) devices in
  length (filter dev_emergencyResponder result) = 1%nat /\
  (forall r, In r result -> dev_emergencyResponder r = true ->
             dev_workRole r = "emergency-responder"%string /\
             forall d, In d devices ->
                       distTo r (hosp_position nearest) <= distTo d (hosp_position nearest)) /\
  (forall r, In r result -> dev_emergencyResponder r = false ->
             dev_workRole r = "worker"%string).
Proof.
  intros Hne. cbv zeta.
  unfold WorkCentricLocationService.assignWorkRoles.
  destruct devices as [| d0 ds]; [ contradiction | clear Hne ].
  set (devs := d0 :: ds).
  assert (Hmap : map (fun device => setRole device "worker" false) devs
                 = setRole d0 "worker" false
                   :: map (fun device => setRole device "worker" false) ds)
    by reflexivity.
  rewrite Hmap. rewrite <- Hmap.
  set (reset := map (fun device => setRole device "worker" false) devs) in *.
  pose proof (roleFold_min (hosp_position nearest) reset [] 0%nat
                (distTo (setRole d0 "worker" false) (hosp_position nearest))
                (setRole d0 "worker" false)) as Hfold.
  cbn [app length] in Hfold.
  specialize (Hfold ltac:(rewrite Hmap; reflexivity) eq_refl
                ltac:(intros d []) ).
  cbv zeta in Hfold. destruct Hfold as (dr & Hnth & Hdist & Hmin).
  set (closest := fold_left _ _ _) in *.
  assert (Hi : (fst closest < length devs)%nat).
  { assert (Hlt : (fst closest < length reset)%nat)
      by (apply nth_error_Some; rewrite Hnth; discriminate).
    unfold reset in Hlt. rewrite length_map in Hlt. exact Hlt. }
  assert (Hreset_role : forall r, In r reset ->
            dev_emergencyResponder r = false /\ dev_workRole r = "worker"%string).
  { intros r Hin. apply in_map_iff in Hin. destruct Hin as (d & <- & _).
    split; reflexivity. }
  split; [ apply promote_one_responder; exact Hi | ]. split.
  - intros r Hin Hresp. apply update_nth_In in Hin.
    destruct Hin as [Hin | (x & Hx & ->)].
    + destruct (Hreset_role r Hin) as [Hfalse _]. congruence.
    + split; [ reflexivity | ].
      rewrite Hnth in Hx. injection Hx as <-.
      intros d Hd.
      change (distTo (setRole dr "emergency-responder" true) (hosp_position nearest))
        with (distTo dr (hosp_position nearest)).
      rewrite <- Hdist.
      change (distTo d (hosp_position nearest))
        with (distTo (setRole d "worker" false) (hosp_position nearest)).
      apply Hmin. unfold reset.
      exact (in_map (fun device => setRole device "worker" false) devs d Hd).
  - intros r Hin Hresp. apply update_nth_In in Hin.
    destruct Hin as [Hin | (x & Hx & ->)].
    + apply Hreset_role. exact Hin.
    + cbn in Hresp. discriminate.
Qed.

(** Role assignment, when it runs without a facility: every device is a
    worker and none is the responder. *)
Lemma assignWorkRoles_without_facility (devices : list Device) :
  WorkCentricLocationService.assignWorkRoles [] devices =
  map (fun device => setRole device "worker" false) devices.
Proof. reflexivity. Qed.

(** A rebuild over at least two online positioned devices and at least one
    facility leaves exactly one responder among them. *)
Lemma rebuild_one_responder (s : Service) (nearest : Hospital) (others : list Hospital) :
  hospitals s = nearest :: others ->
  (2 <= length (filter usable (WorkCentricLocationService.getAllDevices s)))%nat ->
  length
    (filter dev_emergencyResponder
       (filter usable
          (WorkCentricLocationService.getAllDevices
             (WorkCentricLocationService.updateNetworkTopology s)))) = 1%nat.
Proof.
  intros Hh Hn.
  pose proof (updateNetworkTopology_roles s) as Hroles. cbv zeta in Hroles.
  rewrite Hroles.
  destruct (Nat.ltb_spec
              (length (filter usable (WorkCentricLocationService.getAllDevices s))) 2)
    as [Hlt | _]; [ lia | ].
  rewrite Hh.
  apply assignWorkRoles_with_facility.
  intros Hnil. rewrite Hnil in Hn. cbn in Hn. lia.
Qed.

Lemma updateHospitals_state (s : Service) (latitude longitude radiusKm : R)
    (directory : OverpassReply) (routing : nat -> OsrmReply) :
  let s' := fst (WorkCentricLocationService.updateHospitals
                   s latitude longitude radiusKm directory routing) in
  devices s' = devices s /\
  hospitals s' =
    WorkCentricHospitalService.findNearbyHospitals latitude longitude radiusKm directory.
Proof.
  cbv zeta. unfold WorkCentricLocationService.updateHospitals. cbn [fst].
  destruct (0 <? length _)%nat; split; reflexivity.
Qed.

Lemma updateNetworkTopology_hospitals (s : Service) :
  hospitals (WorkCentricLocationService.updateNetworkTopology s) = hospitals s.
Proof.
  unfold WorkCentricLocationService.updateNetworkTopology.
  destruct (length (filter usable (map snd (devices s))) <? 2)%nat; reflexivity.
Qed.

(** The early return of [updateNetworkTopology]. *)
Lemma updateNetworkTopology_few (s : Service) :
  (length (filter usable (map snd (devices s))) < 2)%nat ->
  WorkCentricLocationService.updateNetworkTopology s = withConnections s [].
Proof.
  intros Hfew. unfold WorkCentricLocationService.updateNetworkTopology.
  destruct (Nat.ltb_spec (length (filter usable (map snd (devices s)))) 2);
    [ reflexivity | lia ].
Qed.

Lemma updateDeviceLocation_known (s : Service) (deviceId : string) (position : LatLng)
    (accuracy : R) (now : Z) (directory : OverpassReply) (routing : nat -> OsrmReply)
    (device : Device) :
  map_get deviceId (devices s) = Some device ->
  let s1 :=
    withDevices s
      (map_set deviceId (setLocation device position now accuracy) (devices s)) in
  let s2 :=
    WorkCentricLocationService.updateNetworkTopology
      (fst (WorkCentricLocationService.updateHospitals
              s1 (fst position) (snd position) 2 directory routing)) in
  fst (WorkCentricLocationService.updateDeviceLocation
         s deviceId position accuracy now directory routing)
  = withPending s2 (S (pendingNotifies s2)).
Proof.
  intros Hget. cbv zeta.
  unfold WorkCentricLocationService.updateDeviceLocation. rewrite Hget.
  destruct (WorkCentricLocationService.updateHospitals _ _ _ _ _ _) as [s2 out].
  reflexivity.
Qed.

Lemma oneLocated_state :
  hospitals oneLocated =
    WorkCentricHospitalService.getFallbackHospitals (fst sampleOrigin) (snd sampleOrigin) /\
  devices oneLocated =
    [ ("device-1"%string,
       {| dev_id := "device-1"; dev_name := "Worker-1";
          dev_position := Some sampleOrigin; dev_lastUpdate := Some 1000%Z;
          dev_isOnline := true; dev_accuracy := 5; dev_workRole := "worker";
          dev_emergencyResponder := false; dev_lastEmergencyUpdate := None |}) ].
Proof.
  assert (Hreg : devices oneRegistered =
                 [ ("device-1"%string,
                    {| dev_id := "device-1"; dev_name := "Worker-1";
                       dev_position := None; dev_lastUpdate := None;
                       dev_isOnline := true; dev_accuracy := 0;
                       dev_workRole := "worker"; dev_emergencyResponder := false;
                       dev_lastEmergencyUpdate := None |}) ])
    by reflexivity.
  unfold oneLocated.
  rewrite (updateDeviceLocation_known oneRegistered "device-1" sampleOrigin 5 1000
             OverpassNotOk (fun _ => OsrmNotOk) _
             ltac:(rewrite Hreg; reflexivity)).
  cbn [hospitals devices withPending].
  match goal with
  | |- context [WorkCentricLocationService.updateHospitals ?s1 ?a ?b ?c ?d ?e] =>
      pose proof (updateHospitals_state s1 a b c d e) as [Hdev Hhosp];
      set (s2 := fst (WorkCentricLocationService.updateHospitals s1 a b c d e)) in *
  end.
  cbn [devices withDevices] in Hdev. rewrite Hreg in Hdev. cbn [map_set] in Hdev.
  cbn [String.eqb Ascii.eqb Bool.eqb] in Hdev.
  rewrite updateNetworkTopology_few by (rewrite Hdev; cbn; lia).
  cbn [hospitals devices withConnections].
  rewrite Hhosp, Hdev. split; reflexivity.
Qed.

(** C2 at its failing input.  After the only device of the registry reported
    its position (the directory being unreachable, the service holds the four
    fallback facilities), the rebuild returned before the role assignment:
    the device is online and positioned, a facility exists, and no device is
    the responder. *)
Theorem single_device_gets_no_responder :
  length (hospitals oneLocated) = 4%nat /\
  map usable (WorkCentricLocationService.getAllDevices oneLocated) = [true] /\
  map dev_emergencyResponder (WorkCentricLocationService.getAllDevices oneLocated)
  = [false] /\
  map dev_workRole (WorkCentricLocationService.getAllDevices oneLocated)
  = ["worker"%string].
Proof.
  destruct oneLocated_state as [Hhosp Hdev].
  unfold WorkCentricLocationService.getAllDevices.
  rewrite Hhosp, Hdev, getFallbackHospitals_explicit.
  repeat split.
Qed.

(** ** Concrete runs *)

(** The sweep at 31001 ms: [device-a] is 30001 ms old and goes offline,
    [device-b] is 29999 ms old and stays online, [device-c] never reported
    and stays as it is; the subscriber is called once. *)
Example sweep_at_boundary :
  onlineFlags (fst (WorkCentricLocationService.markOfflineIfStale sweepSample 31001))
  = [false; true; true] /\
  map fst (snd (WorkCentricLocationService.markOfflineIfStale sweepSample 31001))
  = [1%nat].
Proof. split; reflexivity. Qed.

(** The sweep at 31000 ms: [device-a] is exactly 30000 ms old, nothing
    changes and nothing is published. *)
Example sweep_before_boundary :
  WorkCentricLocationService.markOfflineIfStale sweepSample 31000 = (sweepSample, []).
Proof. reflexivity. Qed.

Lemma markOfflineIfStale_sweep_witness :
  Forall2 (sweptEntry 31001) (devices sweepSample)
    (devices (fst (WorkCentricLocationService.markOfflineIfStale sweepSample 31001))).
Proof.
  exact (proj1 (markOfflineIfStale_sweep sweepSample 31001)).
Defined.


(** ** TopologyEngine: the mst mode of the service *)

Lemma filter_idem {A : Type} (f : A -> bool) (l : list A) :
  filter f (filter f l) = filter f l.
Proof.
  induction l as [| x xs IH]; cbn; [ reflexivity | ].
  destruct (f x) eqn:Hx; cbn; [ rewrite Hx, IH; reflexivity | exact IH ].
Qed.

(** In mst mode a rebuild leaves at most [max(0, n - 1)] connections, [n]
    being the number of registered devices that are online and positioned. *)
Lemma mst_mode_size (s : Service) :
  networkTopology s = "mst"%string ->
  (length (connections (WorkCentricLocationService.updateNetworkTopology s))
   <= Nat.max 0 (length (filter usable (WorkCentricLocationService.getAllDevices s)) - 1))%nat.
Proof.
  intros Hmode.
  unfold WorkCentricLocationService.updateNetworkTopology,
    WorkCentricLocationService.getAllDevices.
  destruct (length (filter usable (map snd (devices s))) <? 2)%nat.
  - cbn. lia.
  - rewrite Hmode. cbn [String.eqb Ascii.eqb Bool.eqb connections withDevices withConnections].
    match goal with
    | |- (length (OptimizedNetworkPathfinder.findMinimumSpanningTree ?d ?h) <= _)%nat =>
        pose proof (findMinimumSpanningTree_bound d h) as Hb
    end.
    rewrite filter_idem in Hb. exact Hb.
Qed.

(** C6.  The mst topology has at most [max(0, n - 1)] connections, [n] being
    the number of devices that are online and have a position: for
    [findMinimumSpanningTree] on any devices and facilities, and for the
    connections a rebuild of the service leaves in mst mode. *)
Theorem findMinimumSpanningTree_size :
  forall (devices : list Device) (hospitals : list Hospital),
    (length (OptimizedNetworkPathfinder.findMinimumSpanningTree devices hospitals)
     <= Nat.max 0 (length (filter usable devices) - 1))%nat /\
    (forall s : Service,
        networkTopology s = "mst"%string ->
        (length (connections (WorkCentricLocationService.updateNetworkTopology s))
         <= Nat.max 0
              (length (filter usable (WorkCentricLocationService.getAllDevices s)) - 1))%nat).
Proof.
  intros devices hospitals. split.
  - apply findMinimumSpanningTree_bound.
  - intros s Hmode. apply mst_mode_size. exact Hmode.
Qed.

(** * Further properties of the code *)

(** ** RoutingService *)

(** X2.  [getRoute] falls back to the straight line whenever the provider
    failed or its first route lacks [geometry.coordinates] or [legs] (reading
    either throws); when the first route has both, the result is that route
    with metres turned into kilometres, seconds into minutes, each
    [lng, lat] pair swapped and the steps of its first leg, and it is not
    flagged as fallback.  Routes after the first are never read. *)
Theorem getRoute_cases :
  forall (fromLat fromLng toLat toLng : R) (profile : string) (reply : OsrmReply),
    let r := RoutingService.getRoute fromLat fromLng toLat toLng profile reply in
    (RouteFailure reply \/
     (exists route others,
         reply = OsrmBody (Some (route :: others)) /\
         (osrm_geometry route = None \/ osrm_legs route = None)) ->
     rt_isFallback r = true /\
     rt_coordinates r = [(fromLat, fromLng); (toLat, toLng)] /\
     rt_steps r = []) /\
    (forall route others coordinates legs,
        reply = OsrmBody (Some (route :: others)) ->
        osrm_geometry route = Some coordinates ->
        osrm_legs route = Some legs ->
        rt_isFallback r = false /\
        rt_distance r = osrm_distance route / 1000 /\
        rt_duration r = osrm_duration route / 60 /\
        rt_coordinates r = map (fun c => (snd c, fst c)) coordinates /\
        length (rt_coordinates r) = length coordinates /\
        rt_steps r = match legs with
                     | {| leg_steps := Some steps |} :: _ => steps
                     | _ => []
                     end).
Proof.
  intros fromLat fromLng toLat toLng profile reply. cbv zeta. split.
  - intros [Hfail | (route & others & -> & Hmissing)].
    + destruct Hfail; repeat split.
    + unfold RoutingService.getRoute, RoutingService.getRoute_try.
      destruct Hmissing as [Hg | Hl].
      * rewrite Hg. repeat split.
      * rewrite Hl. destruct (osrm_geometry route); repeat split.
  - intros route others coordinates legs -> Hgeometry Hlegs.
    unfold RoutingService.getRoute, RoutingService.getRoute_try.
    rewrite Hgeometry, Hlegs. cbn. rewrite length_map. repeat split.
Qed.

Lemma getRoute_cases_witness :
  let withoutLegs :=
    {| osrm_geometry := Some [(88.2636, 22.5958)]; osrm_distance := 1200;
       osrm_duration := 180; osrm_legs := None |} in
  let r := RoutingService.getRoute 22.5958 88.2636 22.6 88.27 "driving"
             (OsrmBody (Some [withoutLegs])) in
  rt_isFallback r = true /\
  rt_coordinates r = [(22.5958, 88.2636); (22.6, 88.27)] /\
  rt_steps r = [].
Proof.
  cbv zeta.
  apply (proj1 (getRoute_cases 22.5958 88.2636 22.6 88.27 "driving"
                  (OsrmBody (Some [ {| osrm_geometry := Some [(88.2636, 22.5958)];
                                       osrm_distance := 1200; osrm_duration := 180;
                                       osrm_legs := None |} ])))).
  right. eexists. eexists. split; [ reflexivity | right; reflexivity ].
Defined.

Lemma nth_error_mapi_from {A B : Type} (f : A -> nat -> B) (l : list A) :
  forall i k : nat,
    nth_error (mapi_from i f l) k =
    match nth_error l k with
    | Some x => Some (f x (i + k)%nat)
    | None => None
    end.
Proof.
  induction l as [| a l IH]; intros i k; cbn.
  - destruct k; reflexivity.
  - destruct k as [| k]; cbn.
    + rewrite Nat.add_0_r. reflexivity.
    + rewrite IH. replace (S i + k)%nat with (i + S k)%nat by lia. reflexivity.
Qed.

Lemma mapi_from_ext {A B : Type} (f g : A -> nat -> B) (l : list A) :
  forall i : nat,
    (forall k x, nth_error l k = Some x -> f x (i + k)%nat = g x (i + k)%nat) ->
    mapi_from i f l = mapi_from i g l.
Proof.
  induction l as [| a l IH]; intros i Hext; cbn; [ reflexivity | ].
  f_equal.
  - specialize (Hext 0%nat a eq_refl). rewrite Nat.add_0_r in Hext. exact Hext.
  - apply IH. intros k x Hk.
    specialize (Hext (S k) x Hk).
    replace (i + S k)%nat with (S i + k)%nat in Hext by lia. exact Hext.
Qed.

Lemma length_mapi_from {A B : Type} (f : A -> nat -> B) (l : list A) :
  forall i : nat, length (mapi_from i f l) = length l.
Proof. induction l as [| a l IH]; intros i; cbn; [ reflexivity | rewrite IH; reflexivity ]. Qed.

(** The routes of a batch, one destination after the other: the rejected
    branch of [getMultipleRoutes] is never taken. *)
Lemma getMultipleRoutes_map (fromLat fromLng : R) (destinations : list Hospital)
    (replies : nat -> OsrmReply) :
  RoutingService.getMultipleRoutes fromLat fromLng destinations replies =
  mapi (fun dest index =>
          let route :=
            RoutingService.getRoute fromLat fromLng
              (fst (hosp_position dest)) (snd (hosp_position dest))
              "driving" (replies index) in
          {| hr_dest := dest;
             hr_route := Some route;
             hr_roadDistance := rt_distance route;
             hr_estimatedTime := rt_duration route |})
       destinations.
Proof.
  unfold RoutingService.getMultipleRoutes, mapi.
  apply mapi_from_ext. intros k x Hk. cbn [Nat.add].
  match goal with
  | |- context [nth k ?l Rejected] => set (routes := l)
  end.
  assert (Hr : nth_error routes k =
               Some (Fulfilled
                       (RoutingService.getRoute fromLat fromLng
                          (fst (hosp_position x)) (snd (hosp_position x))
                          "driving" (replies k)))).
  { unfold routes. rewrite nth_error_mapi_from, Hk. reflexivity. }
  rewrite (nth_error_nth _ _ Rejected Hr). reflexivity.
Qed.

(** X3.  [getMultipleRoutes] answers every destination, in order: entry [i]
    is destination [i] merged with the route [getRoute] gives for reply [i],
    with that route's distance and duration; no entry is left without a
    route. *)
Theorem getMultipleRoutes_aligned :
  forall (fromLat fromLng : R) (destinations : list Hospital)
         (replies : nat -> OsrmReply),
    let routes :=
      RoutingService.getMultipleRoutes fromLat fromLng destinations replies in
    length routes = length destinations /\
    map hr_dest routes = destinations /\
    forall (index : nat) (entry : HospitalRoute),
      nth_error routes index = Some entry ->
      let route :=
        RoutingService.getRoute fromLat fromLng
          (fst (hosp_position (hr_dest entry))) (snd (hosp_position (hr_dest entry)))
          "driving" (replies index) in
      hr_route entry = Some route /\
      hr_roadDistance entry = rt_distance route /\
      hr_estimatedTime entry = rt_duration route.
Proof.
  intros fromLat fromLng destinations replies. cbv zeta.
  rewrite getMultipleRoutes_map. unfold mapi.
  split; [ apply length_mapi_from | ]. split.
  - generalize 0%nat. induction destinations as [| d ds IH]; intros i; cbn;
      [ reflexivity | rewrite IH; reflexivity ].
  - intros index entry Hnth.
    rewrite nth_error_mapi_from in Hnth.
    destruct (nth_error destinations index) as [dest |]; [ | discriminate ].
    injection Hnth as <-. cbn. repeat split.
Qed.

(** X4.  A reply affects only the entry of its own destination: two batches
    whose replies agree at an index have the same entry there, whatever the
    other replies are. *)
Theorem getMultipleRoutes_isolated :
  forall (fromLat fromLng : R) (destinations : list Hospital)
         (replies replies' : nat -> OsrmReply) (index : nat),
    replies index = replies' index ->
    nth_error (RoutingService.getMultipleRoutes fromLat fromLng destinations replies)
      index =
    nth_error (RoutingService.getMultipleRoutes fromLat fromLng destinations replies')
      index.
Proof.
  intros fromLat fromLng destinations replies replies' index Hsame.
  rewrite !getMultipleRoutes_map. unfold mapi.
  rewrite !nth_error_mapi_from. cbn [Nat.add]. rewrite Hsame. reflexivity.
Qed.

Lemma getMultipleRoutes_isolated_witness :
  nth_error
    (RoutingService.getMultipleRoutes 22.5958 88.2636
       (WorkCentricHospitalService.getFallbackHospitals 22.5958 88.2636)
       (fun i => if (i =? 1)%nat then OsrmBody (Some []) else OsrmNotOk)) 1 =
  nth_error
    (RoutingService.getMultipleRoutes 22.5958 88.2636
       (WorkCentricHospitalService.getFallbackHospitals 22.5958 88.2636)
       (fun i => if (i =? 1)%nat then OsrmBody (Some []) else OsrmNetworkError)) 1.
Proof.
  exact (getMultipleRoutes_isolated 22.5958 88.2636
           (WorkCentricHospitalService.getFallbackHospitals 22.5958 88.2636)
           (fun i => if (i =? 1)%nat then OsrmBody (Some []) else OsrmNotOk)
           (fun i => if (i =? 1)%nat then OsrmBody (Some []) else OsrmNetworkError)
           1%nat eq_refl).
Defined.

(** ** WorkCentricHospitalService *)

Lemma falsy_num_false (x : option R) :
  falsy_num x = false -> exists v, x = Some v /\ v <> 0.
Proof.
  destruct x as [v |]; cbn; [ | discriminate ].
  destruct (Req_dec_T v 0) as [_ | Hne]; [ discriminate | ].
  intros _. exists v. split; [ reflexivity | exact Hne ].
Qed.

(** X5.  Every hospital the ranker builds from a directory entry has a score
    between 0 and 26, at least 10 when it is flagged emergency and at most 16
    when it is not; its position has no zero coordinate and its distance is
    the great-circle distance from the origin to that position. *)
Theorem toHospital_score_range :
  forall (latitude longitude : R) (element : OsmElement) (h : Hospital),
    WorkCentricHospitalService.toHospital latitude longitude element = Some h ->
    (0 <= hosp_workPriority h <= 26)%Z /\
    (hosp_emergency h = true -> (10 <= hosp_workPriority h)%Z) /\
    (hosp_emergency h = false -> (hosp_workPriority h <= 16)%Z) /\
    fst (hosp_position h) <> 0 /\ snd (hosp_position h) <> 0 /\
    hosp_distance h =
      haversine latitude longitude (fst (hosp_position h)) (snd (hosp_position h)).
Proof.
  intros latitude longitude element h Hh.
  unfold WorkCentricHospitalService.toHospital in Hh.
  destruct (WorkCentricHospitalService.resolve element) as [[olat olon] |];
    [ | discriminate ].
  destruct (falsy_num olat) eqn:Hlat; [ discriminate | ].
  destruct (falsy_num olon) eqn:Hlon; [ discriminate | ].
  apply falsy_num_false in Hlat. destruct Hlat as (lat & -> & Hlat).
  apply falsy_num_false in Hlon. destruct Hlon as (lon & -> & Hlon).
  cbn [orb] in Hh. injection Hh as <-. cbn [hosp_workPriority hosp_emergency
    hosp_position hosp_distance fst snd].
  destruct (is_yes (tag element "emergency") || is_yes (tag element "emergency:medical")
            || match tag element "healthcare:speciality" with
               | Some s => includes "emergency" s
               | None => false
               end);
    destruct (is_yes (tag element "wheelchair"));
    destruct (truthy_str (tag element "opening_hours:emergency"));
    destruct (Rltb (haversine latitude longitude lat lon) 2);
    destruct (Rltb (haversine latitude longitude lat lon) 5);
    destruct (Rltb (haversine latitude longitude lat lon) 10);
    cbn; repeat split; try assumption; try discriminate; try lia.
Qed.

Lemma falsy_num_nonzero (v : R) : v <> 0 -> falsy_num (Some v) = false.
Proof.
  intros Hv. unfold falsy_num.
  destruct (Req_dec_T v 0) as [H0 | _]; [ contradiction | reflexivity ].
Qed.

Lemma toHospital_clinicNode :
  exists h, WorkCentricHospitalService.toHospital 22.5958 88.2636 clinicNode = Some h.
Proof.
  unfold WorkCentricHospitalService.toHospital.
  change (WorkCentricHospitalService.resolve clinicNode)
    with (Some (Some 22.6, Some 88.27)).
  cbv beta iota.
  rewrite !falsy_num_nonzero by lra. cbn [orb].
  eexists. reflexivity.
Qed.

Lemma toHospital_score_range_witness :
  exists h,
    WorkCentricHospitalService.toHospital 22.5958 88.2636 clinicNode = Some h /\
    (0 <= hosp_workPriority h <= 26)%Z.
Proof.
  destruct toHospital_clinicNode as [h Hh].
  exists h. split; [ exact Hh | ].
  exact (proj1 (toHospital_score_range 22.5958 88.2636 clinicNode h Hh)).
Defined.

Lemma dropNull_In {A : Type} (l : list (option A)) (x : A) :
  In x (WorkCentricHospitalService.dropNull l) <-> In (Some x) l.
Proof.
  induction l as [| [y |] l IH]; cbn.
  - reflexivity.
  - rewrite IH. split; intros [H | H]; auto; left; congruence.
  - rewrite IH. split; [ auto | intros [H | H]; [ discriminate | exact H ] ].
Qed.

Lemma dropNull_length {A : Type} (l : list (option A)) :
  (length (WorkCentricHospitalService.dropNull l) <= length l)%nat.
Proof. induction l as [| [y |] l IH]; cbn; lia. Qed.

(** X6.  The ranking of a directory reply holds exactly the entries that
    resolve to a hospital, each once: sorting neither drops nor repeats an
    entry, the list is never longer than the reply, and an empty reply gives
    an empty ranking, not the fallback list. *)
Theorem findNearbyHospitals_contents :
  forall (latitude longitude radiusKm : R) (elements : list OsmElement),
    let ranking :=
      WorkCentricHospitalService.findNearbyHospitals latitude longitude radiusKm
        (OverpassBody (Some elements)) in
    Permutation
      (WorkCentricHospitalService.dropNull
         (map (WorkCentricHospitalService.toHospital latitude longitude) elements))
      ranking /\
    (length ranking <= length elements)%nat /\
    (forall h, In h ranking <->
               exists element,
                 In element elements /\
                 WorkCentricHospitalService.toHospital latitude longitude element
                 = Some h) /\
    (elements = [] -> ranking = []).
Proof.
  intros latitude longitude radiusKm elements. cbv zeta.
  pose proof (findNearbyHospitals_Permutation latitude longitude radiusKm elements)
    as Hperm.
  split; [ exact Hperm | ]. split; [ | split ].
  - rewrite <- (Permutation_length Hperm).
    etransitivity; [ apply dropNull_length | rewrite length_map; lia ].
  - intros h. split.
    + intros Hin. apply (Permutation_in _ (Permutation_sym Hperm)) in Hin.
      apply dropNull_In in Hin. apply in_map_iff in Hin.
      destruct Hin as (e & He & Hin). exists e. split; assumption.
    + intros (e & Hin & He). apply (Permutation_in _ Hperm).
      apply dropNull_In. apply in_map_iff. exists e. split; assumption.
  - intros ->. reflexivity.
Qed.

(** X7.  An entry that is not a node and has no [center] never reaches the
    ranking, whatever else it carries: a way with a node list is dropped at
    once, any other has no coordinates. *)
Theorem toHospital_without_center :
  forall (latitude longitude : R) (element : OsmElement),
    el_type element <> "node"%string ->
    el_center element = None ->
    WorkCentricHospitalService.toHospital latitude longitude element = None.
Proof.
  intros latitude longitude element Htype Hcenter.
  unfold WorkCentricHospitalService.toHospital, WorkCentricHospitalService.resolve.
  destruct (String.eqb_spec (el_type element) "node") as [Heq | _];
    [ contradiction | ].
  rewrite Hcenter.
  destruct (String.eqb (el_type element) "way"); [ destruct (el_nodes element) | ];
    reflexivity.
Qed.

Lemma toHospital_without_center_witness :
  WorkCentricHospitalService.toHospital 22.5958 88.2636 wayWithoutCenter = None.
Proof.
  exact (toHospital_without_center 22.5958 88.2636 wayWithoutCenter
           ltac:(discriminate) eq_refl).
Defined.

(** ** OptimizedNetworkPathfinder: the scored pairs *)

Lemma js_sort_length {A : Type} (cmp : A -> A -> R) (l : list A) :
  length (js_sort cmp l) = length l.
Proof. symmetry. apply Permutation_length. apply js_sort_Permutation. Qed.

Lemma js_sort_In {A : Type} (cmp : A -> A -> R) (l : list A) (x : A) :
  In x (js_sort cmp l) <-> In x l.
Proof.
  split; apply Permutation_in;
    [ apply Permutation_sym | ]; apply js_sort_Permutation.
Qed.

Lemma allPairs_length (hospitalPositions : list LatLng) (nodes : list Device) :
  (2 * length (OptimizedNetworkPathfinder.allPairs hospitalPositions nodes)
   = length nodes * (length nodes - 1))%nat.
Proof.
  induction nodes as [| ni rest IH]; cbn [OptimizedNetworkPathfinder.allPairs length];
    [ reflexivity | ].
  rewrite length_app, length_map. nia.
Qed.

Lemma allPairs_In (hospitalPositions : list LatLng) (nodes : list Device)
    (c : Connection) :
  In c (OptimizedNetworkPathfinder.allPairs hospitalPositions nodes) ->
  exists ni nj,
    In ni nodes /\ In nj nodes /\
    c = OptimizedNetworkPathfinder.scoredPair hospitalPositions ni nj.
Proof.
  induction nodes as [| n rest IH]; cbn; [ contradiction | ].
  intros Hin. apply in_app_or in Hin. destruct Hin as [Hin | Hin].
  - apply in_map_iff in Hin. destruct Hin as (nj & <- & Hnj).
    exists n, nj. repeat split; auto.
  - destruct (IH Hin) as (ni & nj & Hi & Hj & ->).
    exists ni, nj. repeat split; auto.
Qed.

Lemma findWorkOptimalPaths_In (devices : list Device) (hospitals : list Hospital)
    (c : Connection) :
  In c (OptimizedNetworkPathfinder.findWorkOptimalPaths devices hospitals) ->
  exists ni nj,
    In ni (filter usable devices) /\ In nj (filter usable devices) /\
    c = OptimizedNetworkPathfinder.scoredPair
          (map hosp_position (firstn 3 hospitals)) ni nj.
Proof.
  unfold OptimizedNetworkPathfinder.findWorkOptimalPaths.
  destruct (length (filter usable devices) <? 2)%nat; [ contradiction | ].
  intros Hin. apply js_sort_In in Hin. apply allPairs_In. exact Hin.
Qed.


Lemma findWorkOptimalPaths_pairs (devices : list Device) (hospitals : list Hospital) :
  (2 * length (OptimizedNetworkPathfinder.findWorkOptimalPaths devices hospitals)
   = length (filter usable devices) * (length (filter usable devices) - 1))%nat.
Proof.
  unfold OptimizedNetworkPathfinder.findWorkOptimalPaths.
  destruct (Nat.ltb_spec (length (filter usable devices)) 2) as [Hlt | Hge].
  - cbn [length]. nia.
  - rewrite js_sort_length. apply allPairs_length.
Qed.

(** X8.  [findWorkOptimalPaths] scores every unordered pair of online
    positioned devices once: with [n] such devices it returns [n (n - 1) / 2]
    paths, and it returns none exactly when [n < 2]. *)
Theorem findWorkOptimalPaths_count :
  forall (devices : list Device) (hospitals : list Hospital),
    let n := length (filter usable devices) in
    let paths := OptimizedNetworkPathfinder.findWorkOptimalPaths devices hospitals in
    (2 * length paths = n * (n - 1))%nat /\
    (paths = [] <-> (n < 2)%nat).
Proof.
  intros devices hospitals. cbv zeta.
  pose proof (findWorkOptimalPaths_pairs devices hospitals) as Hpairs.
  split; [ exact Hpairs | ].
  destruct (OptimizedNetworkPathfinder.findWorkOptimalPaths devices hospitals)
    as [| p ps]; cbn [length] in Hpairs.
  - split; [ intros _; nia | reflexivity ].
  - split; [ discriminate | intros Hn; exfalso; nia ].
Qed.





(** ** OptimizedNetworkPathfinder: the emergency star *)

(** The first loop of [createEmergencyTopology] ends on a device of the list
    (or the starting one) that is at least as near as every device passed. *)
Lemma closestFold_min (hospitalPos : LatLng) (l : list Device) :
  forall acc : Device * R,
    snd acc = distTo (fst acc) hospitalPos ->
    let r := fold_left (OptimizedNetworkPathfinder.closestStep hospitalPos) l acc in
    (fst r = fst acc \/ In (fst r) l) /\
    snd r = distTo (fst r) hospitalPos /\
    snd r <= snd acc /\
    (forall d, In d l -> snd r <= distTo d hospitalPos).
Proof.
  induction l as [| d l IH]; intros acc Hacc; cbn [fold_left].
  - cbn. repeat split; [ left; reflexivity | exact Hacc | lra | contradiction ].
  - set (acc' := OptimizedNetworkPathfinder.closestStep hospitalPos acc d).
    assert (Hstep : snd acc' = distTo (fst acc') hospitalPos /\
                    snd acc' <= snd acc /\ snd acc' <= distTo d hospitalPos /\
                    (fst acc' = fst acc \/ fst acc' = d)).
    { unfold acc', OptimizedNetworkPathfinder.closestStep, Rltb.
      destruct (Rlt_dec (distTo d hospitalPos) (snd acc)); cbn [fst snd];
        repeat split; auto; lra. }
    destruct Hstep as (H1 & H2 & H3 & H4).
    specialize (IH acc' H1). cbv zeta in IH.
    destruct IH as (Hin & Hdist & Hle & Hmin).
    repeat split.
    + destruct Hin as [Hin | Hin]; [ | right; right; exact Hin ].
      rewrite Hin. destruct H4 as [-> | ->]; [ left; reflexivity | right; left; reflexivity ].
    + exact Hdist.
    + lra.
    + intros d' [<- | Hd']; [ lra | apply Hmin; exact Hd' ].
Qed.



Lemma filter_other_ids_length (l : list Device) (hub : Device) :
  In hub l ->
  (length (filter (fun d => negb (String.eqb (dev_id d) (dev_id hub))) l)
   <= length l - 1)%nat /\
  (NoDup (map dev_id l) ->
   length (filter (fun d => negb (String.eqb (dev_id d) (dev_id hub))) l)
   = (length l - 1)%nat).
Proof.
  induction l as [| x l IH]; intros Hin; [ contradiction | ].
  cbn [filter length map].
  destruct (String.eqb_spec (dev_id x) (dev_id hub)) as [Heq | Hne]; cbn [negb].
  - split.
    + pose proof (filter_length_le
                    (fun d => negb (String.eqb (dev_id d) (dev_id hub))) l). lia.
    + intros Hnd. inversion Hnd as [| a m Hnotin Hnd']; subst.
      replace (S (length l) - 1)%nat with (length l) by lia.
      assert (Hall : forall y, In y l ->
                negb (String.eqb (dev_id y) (dev_id hub)) = true).
      { intros y Hy. destruct (String.eqb_spec (dev_id y) (dev_id hub)) as [E | _];
          [ | reflexivity ].
        exfalso. apply Hnotin. rewrite Heq, <- E. apply in_map. exact Hy. }
      clear -Hall. induction l as [| y l IH]; cbn; [ reflexivity | ].
      rewrite (Hall y (or_introl eq_refl)). cbn. f_equal.
      apply IH. intros z Hz. apply Hall. right. exact Hz.
  - destruct Hin as [-> | Hin]; [ contradiction Hne; reflexivity | ].
    destruct (IH Hin) as [Hle Heq].
    assert (Hpos : (1 <= length l)%nat) by (destruct l; [ contradiction | cbn; lia ]).
    split; [ cbn [length]; lia | ].
    intros Hnd. inversion Hnd; subst. cbn [length]. rewrite Heq by assumption. lia.
Qed.

(** X12.  With a facility, the emergency star over [n >= 1] online positioned
    devices has at most [n - 1] connections, and exactly [n - 1] when the
    devices have distinct ids. *)
Theorem createEmergencyTopology_size :
  forall (devices : list Device) (nearest : Hospital) (others : list Hospital),
    let online := filter usable devices in
    let conns :=
      OptimizedNetworkPathfinder.createEmergencyTopology devices (nearest :: others) in
    (length conns <= length online - 1)%nat /\
    (NoDup (map dev_id online) -> length conns = (length online - 1)%nat).
Proof.
  intros devices nearest others. cbv zeta.
  unfold OptimizedNetworkPathfinder.createEmergencyTopology.
  destruct (filter usable devices) as [| first rest] eqn:Honline.
  - split; [ cbn; lia | reflexivity ].
  - pose proof (closestFold_min (hosp_position nearest) (first :: rest)
                  (first, distTo first (hosp_position nearest)) eq_refl) as Hfold.
    cbv zeta in Hfold. destruct Hfold as (Hin & _).
    set (closest := fold_left _ _ _) in *.
    assert (Hhub : In (fst closest) (first :: rest)).
    { destruct Hin as [-> | Hin]; [ left; reflexivity | exact Hin ]. }
    rewrite length_map.
    apply filter_other_ids_length. exact Hhub.
Qed.

(** ** OptimizedNetworkPathfinder: the greedy tree *)

(** The loop only appends, and only paths it is given. *)
Lemma mstLoop_extends (target : Z) (paths : list Connection) :
  forall (mst : list Connection) (connectedNodes : list string),
    exists added,
      OptimizedNetworkPathfinder.mstLoop target paths mst connectedNodes = mst ++ added /\
      incl added paths.
Proof.
  induction paths as [| path rest IH]; intros mst connectedNodes; cbn.
  - exists []. split; [ rewrite app_nil_r; reflexivity | intros x [] ].
  - destruct (negb _ || negb _).
    + destruct (Z.of_nat (length (mst ++ [path])) =? target)%Z.
      * exists [path]. split; [ reflexivity | intros x [<- | []]; left; reflexivity ].
      * destruct (IH (mst ++ [path])
                     (set_add (set_add connectedNodes (dev_id (conn_from path)))
                              (dev_id (conn_to path)))) as (added & -> & Hincl).
        exists (path :: added). split; [ rewrite <- app_assoc; reflexivity | ].
        intros x [<- | Hx]; [ left; reflexivity | right; apply Hincl; exact Hx ].
    + destruct (IH mst connectedNodes) as (added & -> & Hincl).
      exists added. split; [ reflexivity | ].
      intros x Hx. right. apply Hincl. exact Hx.
Qed.




(** ** WorkCentricLocationService: the rebuilt topology *)

Lemma In_firstn {A : Type} (n : nat) (l : list A) (x : A) :
  In x (firstn n l) -> In x l.
Proof.
  intros Hx. rewrite <- (firstn_skipn n l). apply in_or_app. left. exact Hx.
Qed.

Lemma createEmergencyTopology_endpoints (devices : list Device)
    (hospitals : list Hospital) (c : Connection) :
  In c (OptimizedNetworkPathfinder.createEmergencyTopology devices hospitals) ->
  In (conn_from c) (filter usable devices) /\ In (conn_to c) (filter usable devices).
Proof.
  unfold OptimizedNetworkPathfinder.createEmergencyTopology.
  destruct (filter usable devices) as [| first rest] eqn:Honline; [ contradiction | ].
  destruct hospitals as [| nearest others]; [ contradiction | ].
  pose proof (closestFold_min (hosp_position nearest) (first :: rest)
                (first, distTo first (hosp_position nearest)) eq_refl) as Hfold.
  cbv zeta in Hfold. destruct Hfold as (Hin & _).
  set (closest := fold_left _ _ _) in *.
  intros Hc. apply in_map_iff in Hc. destruct Hc as (d & <- & Hd).
  apply filter_In in Hd. destruct Hd as [Hd _]. cbn [conn_from conn_to].
  split; [ | exact Hd ].
  destruct Hin as [-> | Hin]; [ left; reflexivity | exact Hin ].
Qed.

Lemma findMinimumSpanningTree_incl (devices : list Device) (hospitals : list Hospital) :
  incl (OptimizedNetworkPathfinder.findMinimumSpanningTree devices hospitals)
       (OptimizedNetworkPathfinder.findWorkOptimalPaths devices hospitals).
Proof.
  unfold OptimizedNetworkPathfinder.findMinimumSpanningTree.
  destruct (OptimizedNetworkPathfinder.findWorkOptimalPaths devices hospitals)
    as [| p ps]; [ intros x [] | ].
  match goal with
  | |- incl (OptimizedNetworkPathfinder.mstLoop ?t ?l [] []) _ =>
      destruct (mstLoop_extends t l [] []) as (added & -> & Hincl)
  end.
  intros x Hx. cbn [app] in Hx. apply Hincl in Hx. apply js_sort_In in Hx. exact Hx.
Qed.

(** The connections of every mode join devices of the filtered array. *)
Lemma mode_endpoints (mode : string) (online : list Device) (hospitals : list Hospital)
    (c : Connection) :
  In c (if String.eqb mode "emergency" then
          OptimizedNetworkPathfinder.createEmergencyTopology online hospitals
        else if String.eqb mode "work-optimal" then
          firstn (length online * 2)
            (OptimizedNetworkPathfinder.findWorkOptimalPaths online hospitals)
        else if String.eqb mode "mst" then
          OptimizedNetworkPathfinder.findMinimumSpanningTree online hospitals
        else
          OptimizedNetworkPathfinder.createEmergencyTopology online hospitals) ->
  In (conn_from c) (filter usable online) /\ In (conn_to c) (filter usable online).
Proof.
  assert (Hpaths : forall x,
             In x (OptimizedNetworkPathfinder.findWorkOptimalPaths online hospitals) ->
             In (conn_from x) (filter usable online) /\
             In (conn_to x) (filter usable online)).
  { intros x Hx. apply findWorkOptimalPaths_In in Hx.
    destruct Hx as (ni & nj & Hi & Hj & ->). split; assumption. }
  destruct (String.eqb mode "emergency");
    [ apply createEmergencyTopology_endpoints | ].
  destruct (String.eqb mode "work-optimal").
  { intros Hc. apply Hpaths. eapply In_firstn. exact Hc. }
  destruct (String.eqb mode "mst");
    [ | apply createEmergencyTopology_endpoints ].
  intros Hc. apply Hpaths. apply findMinimumSpanningTree_incl. exact Hc.
Qed.

Lemma Forall2_In_l {A B : Type} (rel : A -> B -> Prop) (l : list A) (l' : list B) :
  Forall2 rel l l' -> forall x, In x l -> exists y, In y l' /\ rel x y.
Proof.
  induction 1 as [| a b l l' Hab Hrest IH]; intros x Hx; [ contradiction | ].
  destruct Hx as [<- | Hx].
  - exists b. split; [ left; reflexivity | exact Hab ].
  - destruct (IH x Hx) as (y & Hy & Hr). exists y. split; [ right; exact Hy | exact Hr ].
Qed.

Lemma rebuild_anchored (s : Service) :
  Forall (anchored (devices (WorkCentricLocationService.updateNetworkTopology s)))
         (connections (WorkCentricLocationService.updateNetworkTopology s)).
Proof.
  pose proof (updateNetworkTopology_roles s) as Hroles. cbv zeta in Hroles.
  unfold WorkCentricLocationService.getAllDevices in Hroles.
  unfold WorkCentricLocationService.updateNetworkTopology in *.
  destruct (length (filter usable (map snd (devices s))) <? 2)%nat.
  - cbn. constructor.
  - cbn [connections devices withDevices withConnections hospitals networkTopology] in *.
    set (online := filter usable (map snd (devices s))) in *.
    apply Forall_forall. intros c Hc.
    apply mode_endpoints in Hc. unfold online in Hc.
    rewrite !filter_idem in Hc. fold online in Hc. destruct Hc as [Hfrom Hto].
    pose proof (assignWorkRoles_sameButRole (hospitals s) online) as Hsame.
    unfold anchored. rewrite Hroles. split.
    + exact (Forall2_In_l _ _ _ Hsame _ Hfrom).
    + exact (Forall2_In_l _ _ _ Hsame _ Hto).
Qed.

(** X14.  After a rebuild, in every mode, both ends of every connection are
    online positioned devices of the registry; with fewer than two such
    devices there is no connection and the registry is left as it was. *)
Theorem updateNetworkTopology_connections :
  forall s : Service,
    let s' := WorkCentricLocationService.updateNetworkTopology s in
    Forall (anchored (devices s')) (connections s') /\
    ((length (filter usable (WorkCentricLocationService.getAllDevices s)) < 2)%nat ->
     connections s' = [] /\ devices s' = devices s).
Proof.
  intros s. cbv zeta. split; [ apply rebuild_anchored | ].
  intros Hfew. rewrite (updateNetworkTopology_few s Hfew). split; reflexivity.
Qed.

(** X15.  A topology mode other than work-optimal and mst is treated as
    emergency: the rebuild leaves the same connections and the same
    devices. *)
Theorem unknown_mode_is_emergency :
  forall (s : Service) (topology : string),
    topology <> "work-optimal"%string -> topology <> "mst"%string ->
    let s1 := WorkCentricLocationService.updateNetworkTopology (withTopology s topology) in
    let s2 :=
      WorkCentricLocationService.updateNetworkTopology (withTopology s "emergency") in
    connections s1 = connections s2 /\ devices s1 = devices s2.
Proof.
  intros s topology Hwo Hmst. cbv zeta.
  unfold WorkCentricLocationService.updateNetworkTopology.
  cbn [devices hospitals networkTopology withTopology].
  destruct (length (filter usable (map snd (devices s))) <? 2)%nat;
    [ split; reflexivity | ].
  destruct (String.eqb_spec topology "work-optimal") as [E | _]; [ contradiction | ].
  destruct (String.eqb_spec topology "mst") as [E | _]; [ contradiction | ].
  destruct (String.eqb topology "emergency"); split; reflexivity.
Qed.

Lemma unknown_mode_is_emergency_witness :
  connections
    (WorkCentricLocationService.updateNetworkTopology (withTopology sweepSample "ring"))
  = connections
      (WorkCentricLocationService.updateNetworkTopology
         (withTopology sweepSample "emergency")).
Proof.
  exact (proj1 (unknown_mode_is_emergency sweepSample "ring"
                  ltac:(discriminate) ltac:(discriminate))).
Defined.

(** X16.  In work-optimal mode a rebuild over [n] online positioned devices
    keeps at most [2 n] connections and never more than the [n (n - 1) / 2]
    pairs there are. *)
Theorem work_optimal_mode_size :
  forall s : Service,
    networkTopology s = "work-optimal"%string ->
    let n := length (filter usable (WorkCentricLocationService.getAllDevices s)) in
    let conns := connections (WorkCentricLocationService.updateNetworkTopology s) in
    (length conns <= 2 * n)%nat /\ (2 * length conns <= n * (n - 1))%nat.
Proof.
  intros s Hmode. cbv zeta.
  unfold WorkCentricLocationService.updateNetworkTopology,
    WorkCentricLocationService.getAllDevices.
  destruct (length (filter usable (map snd (devices s))) <? 2)%nat.
  - cbn. lia.
  - rewrite Hmode.
    cbn [String.eqb Ascii.eqb Bool.eqb connections withDevices withConnections].
    set (online := filter usable (map snd (devices s))).
    pose proof (findWorkOptimalPaths_pairs online (hospitals s)) as Hcount.
    unfold online in Hcount. rewrite !filter_idem in Hcount. fold online in Hcount.
    rewrite length_firstn. lia.
Qed.

Lemma work_optimal_mode_size_witness :
  (length
     (connections
        (WorkCentricLocationService.updateNetworkTopology
           (withTopology sweepSample "work-optimal")))
   <= 2 * length
          (filter usable
             (WorkCentricLocationService.getAllDevices
                (withTopology sweepSample "work-optimal"))))%nat.
Proof.
  exact (proj1 (work_optimal_mode_size (withTopology sweepSample "work-optimal")
                  eq_refl)).
Defined.

(** X17.  After a rebuild at most one online positioned device is flagged
    [emergencyResponder]. *)
Theorem rebuild_at_most_one_responder :
  forall s : Service,
    (length
       (filter dev_emergencyResponder
          (filter usable
             (WorkCentricLocationService.getAllDevices
                (WorkCentricLocationService.updateNetworkTopology s))))
     <= 1)%nat.
Proof.
  intros s.
  pose proof (updateNetworkTopology_roles s) as Hroles. cbv zeta in Hroles.
  rewrite Hroles.
  set (online := filter usable (WorkCentricLocationService.getAllDevices s)).
  destruct (Nat.ltb_spec (length online) 2) as [Hlt | Hge].
  - pose proof (filter_length_le dev_emergencyResponder online). lia.
  - destruct (hospitals s) as [| nearest others].
    + rewrite assignWorkRoles_without_facility, reset_no_responder. cbn. lia.
    + assert (Hne : online <> []) by (intros E; rewrite E in Hge; cbn in Hge; lia).
      pose proof (assignWorkRoles_with_facility nearest others online Hne) as [H1 _].
      rewrite H1. lia.
Qed.

(** ** The device map *)

Lemma map_get_set_same {V : Type} (k : string) (v : V) (m : list (string * V)) :
  map_get k (map_set k v m) = Some v.
Proof.
  induction m as [| [k' v'] m IH]; cbn.
  - rewrite String.eqb_refl. reflexivity.
  - destruct (String.eqb_spec k' k) as [-> | Hne]; cbn.
    + rewrite String.eqb_refl. reflexivity.
    + destruct (String.eqb_spec k' k); [ contradiction | exact IH ].
Qed.

Lemma map_get_set_other {V : Type} (k k' : string) (v : V) (m : list (string * V)) :
  k <> k' -> map_get k' (map_set k v m) = map_get k' m.
Proof.
  intros Hne. induction m as [| [k0 v0] m IH]; cbn.
  - destruct (String.eqb_spec k k'); [ contradiction | reflexivity ].
  - destruct (String.eqb_spec k0 k) as [-> | Hne0]; cbn.
    + destruct (String.eqb_spec k k'); [ contradiction | reflexivity ].
    + destruct (String.eqb k0 k'); [ reflexivity | exact IH ].
Qed.

Lemma map_get_In {V : Type} (k : string) (v : V) (m : list (string * V)) :
  map_get k m = Some v -> In (k, v) m.
Proof.
  induction m as [| [k0 v0] m IH]; cbn; [ discriminate | ].
  destruct (String.eqb_spec k0 k) as [-> | _].
  - intros [= ->]. left. reflexivity.
  - intros H. right. apply IH. exact H.
Qed.

Lemma map_get_None {V : Type} (k : string) (m : list (string * V)) :
  map_get k m = None <-> ~ In k (map fst m).
Proof.
  induction m as [| [k0 v0] m IH]; cbn.
  - split; [ intros _ [] | reflexivity ].
  - destruct (String.eqb_spec k0 k) as [-> | Hne].
    + split; [ discriminate | intros H; exfalso; apply H; left; reflexivity ].
    + rewrite IH. split; [ intros H [E | Hin]; auto | intros H Hin; apply H; right; exact Hin ].
Qed.

Lemma map_set_keys {V : Type} (k : string) (v : V) (m : list (string * V)) :
  map fst (map_set k v m) =
  match map_get k m with
  | Some _ => map fst m
  | None => map fst m ++ [k]
  end.
Proof.
  induction m as [| [k0 v0] m IH]; cbn; [ reflexivity | ].
  destruct (String.eqb_spec k0 k) as [-> | Hne]; cbn; [ reflexivity | ].
  rewrite IH. destruct (map_get k m); reflexivity.
Qed.

Lemma map_set_In {V : Type} (k : string) (v : V) (m : list (string * V))
    (e : string * V) :
  In e (map_set k v m) -> e = (k, v) \/ In e m.
Proof.
  induction m as [| [k0 v0] m IH]; cbn.
  - intros [<- | []]. left. reflexivity.
  - destruct (String.eqb k0 k); cbn.
    + intros [<- | H]; [ left; reflexivity | right; right; exact H ].
    + intros [<- | H]; [ right; left; reflexivity | ].
      destruct (IH H) as [E | Hin]; [ left; exact E | right; right; exact Hin ].
Qed.

Lemma map_delete_In {V : Type} (k : string) (m : list (string * V))
    (e : string * V) :
  In e (map_delete k m) -> In e m.
Proof.
  induction m as [| [k0 v0] m IH]; cbn; [ contradiction | ].
  destruct (String.eqb k0 k); cbn.
  - intros H. right. exact H.
  - intros [<- | H]; [ left; reflexivity | right; apply IH; exact H ].
Qed.

Lemma map_delete_keys_NoDup {V : Type} (k : string) (m : list (string * V)) :
  NoDup (map fst m) ->
  NoDup (map fst (map_delete k m)) /\ ~ In k (map fst (map_delete k m)).
Proof.
  induction m as [| [k0 v0] m IH]; cbn; intros Hnd.
  - split; [ constructor | intros [] ].
  - inversion Hnd as [| a l Hnotin Hnd']; subst.
    destruct (String.eqb_spec k0 k) as [-> | Hne]; cbn.
    + split; assumption.
    + destruct (IH Hnd') as [H1 H2]. split.
      * constructor; [ | exact H1 ].
        intros Hin. apply Hnotin. apply in_map_iff in Hin.
        destruct Hin as (e & <- & He). apply in_map. eapply map_delete_In. exact He.
      * intros [E | Hin]; [ contradiction | exact (H2 Hin) ].
Qed.

Lemma map_get_delete_other {V : Type} (k k' : string) (m : list (string * V)) :
  k <> k' -> map_get k' (map_delete k m) = map_get k' m.
Proof.
  intros Hne. induction m as [| [k0 v0] m IH]; cbn; [ reflexivity | ].
  destruct (String.eqb_spec k0 k) as [-> | Hne0]; cbn.
  - destruct (String.eqb_spec k k'); [ contradiction | reflexivity ].
  - destruct (String.eqb k0 k'); [ reflexivity | exact IH ].
Qed.

(** Lookup through a rebuild of the topology. *)
Lemma map_get_rebuilt (k : string) (l l' : list (string * Device)) :
  Forall2 rebuiltEntry l l' ->
  match map_get k l with
  | Some d =>
      exists d', map_get k l' = Some d' /\ sameButRole d d' /\
                 (usable d = false -> d' = d)
  | None => map_get k l' = None
  end.
Proof.
  induction 1 as [| [k0 d0] [k1 d1] l l' (Hk & Hsame & Hkeep) Hrest IH]; cbn;
    [ reflexivity | ].
  cbn in Hk. subst k1.
  destruct (String.eqb k0 k); [ | exact IH ].
  exists d1. split; [ reflexivity | ]. split; [ exact Hsame | ].
  intros Hu. cbn in Hkeep. specialize (Hkeep Hu). congruence.
Qed.

Lemma rebuilt_keys (l l' : list (string * Device)) :
  Forall2 rebuiltEntry l l' -> map fst l' = map fst l.
Proof.
  induction 1 as [| e e' l l' (Hk & _) Hrest IH]; cbn; [ reflexivity | ].
  rewrite Hk, IH. reflexivity.
Qed.

Lemma registryOk_rebuilt (l l' : list (string * Device)) :
  Forall2 rebuiltEntry l l' -> registryOk l -> registryOk l'.
Proof.
  intros Hreb [[Hnd Hkeys] Hrep].
  unfold registryOk, wellKeyed. rewrite (rebuilt_keys _ _ Hreb).
  split; [ split; [ exact Hnd | ] | ].
  - clear Hnd Hrep. induction Hreb as [| e e' l l' (Hk & Hsame & _) Hrest IH];
      [ constructor | ].
    inversion Hkeys; subst. constructor; [ | apply IH; assumption ].
    destruct Hsame as (Hid & _). congruence.
  - clear Hnd Hkeys. induction Hreb as [| e e' l l' (_ & Hsame & _) Hrest IH];
      [ constructor | ].
    inversion Hrep; subst. constructor; [ | apply IH; assumption ].
    destruct Hsame as (_ & _ & Hpos & Hlu & _).
    unfold reportedOrNot in *. rewrite Hpos, Hlu. assumption.
Qed.

Lemma registryOk_set (k : string) (d : Device) (m : list (string * Device)) :
  dev_id d = k -> reportedOrNot d -> registryOk m -> registryOk (map_set k d m).
Proof.
  intros Hid Hrep [[Hnd Hkeys] Hreps]. unfold registryOk, wellKeyed.
  split; [ split | ].
  - rewrite map_set_keys. destruct (map_get k m) eqn:Hget; [ exact Hnd | ].
    apply map_get_None in Hget.
    apply NoDup_app; [ exact Hnd | repeat constructor; intros [] | ].
    intros x Hx [<- | []]. exact (Hget Hx).
  - apply Forall_forall. intros e He. apply map_set_In in He.
    destruct He as [-> | He]; [ exact Hid | ].
    rewrite Forall_forall in Hkeys. apply Hkeys. exact He.
  - apply Forall_forall. intros e He. apply map_set_In in He.
    destruct He as [-> | He]; [ exact Hrep | ].
    rewrite Forall_forall in Hreps. apply Hreps. exact He.
Qed.

Lemma registryOk_delete (k : string) (m : list (string * Device)) :
  registryOk m -> registryOk (map_delete k m).
Proof.
  intros [[Hnd Hkeys] Hreps]. unfold registryOk, wellKeyed.
  split; [ split | ].
  - apply map_delete_keys_NoDup. exact Hnd.
  - apply Forall_forall. intros e He. apply map_delete_In in He.
    rewrite Forall_forall in Hkeys. apply Hkeys. exact He.
  - apply Forall_forall. intros e He. apply map_delete_In in He.
    rewrite Forall_forall in Hreps. apply Hreps. exact He.
Qed.

(** ** DeviceRegistry operations *)

(** X18.  [registerDevice] puts a fresh device under the id: online, without
    position or time of last update.  An id that was registered before keeps
    its place in the map and loses what it had reported; a new id is put
    last.  Every other device stays, up to its role. *)
Theorem registerDevice_lookup :
  forall (s : Service) (deviceId deviceName workRole : string),
    let s' :=
      fst (WorkCentricLocationService.registerDevice s deviceId deviceName workRole) in
    map_get deviceId (devices s') = Some (freshDevice deviceId deviceName workRole) /\
    map fst (devices s') =
      match map_get deviceId (devices s) with
      | Some _ => map fst (devices s)
      | None => map fst (devices s) ++ [deviceId]
      end /\
    (forall other d,
        other <> deviceId ->
        map_get other (devices s) = Some d ->
        exists d', map_get other (devices s') = Some d' /\ sameButRole d d').
Proof.
  intros s deviceId deviceName workRole. cbv zeta.
  unfold WorkCentricLocationService.registerDevice. cbn [fst].
  fold (freshDevice deviceId deviceName workRole).
  set (s1 := withDevices s (map_set deviceId (freshDevice deviceId deviceName workRole)
                              (devices s))).
  pose proof (updateNetworkTopology_devices s1) as Hreb.
  split; [ | split ].
  - pose proof (map_get_rebuilt deviceId _ _ Hreb) as Hget.
    unfold s1 in Hget at 1. cbn [devices withDevices] in Hget.
    rewrite map_get_set_same in Hget.
    destruct Hget as (d' & Hd' & _ & Hkeep). rewrite Hd'. f_equal.
    apply Hkeep. reflexivity.
  - rewrite (rebuilt_keys _ _ Hreb). unfold s1. cbn [devices withDevices].
    apply map_set_keys.
  - intros other d Hne Hget.
    pose proof (map_get_rebuilt other _ _ Hreb) as Hget'.
    unfold s1 in Hget' at 1. cbn [devices withDevices] in Hget'.
    rewrite map_get_set_other in Hget' by congruence. rewrite Hget in Hget'.
    destruct Hget' as (d' & Hd' & Hsame & _). exists d'. split; assumption.
Qed.

(** A snapshot does not mention an id: no device and no end of a connection
    carries it. *)
Lemma anchored_other_id (registry : list (string * Device)) (c : Connection)
    (k : string) :
  wellKeyed registry -> ~ In k (map fst registry) -> anchored registry c ->
  dev_id (conn_from c) <> k /\ dev_id (conn_to c) <> k.
Proof.
  intros [_ Hkeys] Hnotin [(d1 & Hin1 & Hs1) (d2 & Hin2 & Hs2)].
  assert (Hid : forall d, In d (filter usable (map snd registry)) -> dev_id d <> k).
  { intros d Hd. apply filter_In in Hd. destruct Hd as [Hd _].
    apply in_map_iff in Hd. destruct Hd as ([k0 d0] & <- & He).
    rewrite Forall_forall in Hkeys. pose proof (Hkeys _ He) as E. cbn in E |- *.
    rewrite E. intros ->. apply Hnotin. apply in_map_iff. exists (k, d0).
    split; [ reflexivity | exact He ]. }
  destruct Hs1 as (E1 & _). destruct Hs2 as (E2 & _).
  split; [ rewrite <- E1 | rewrite <- E2 ]; apply Hid; assumption.
Qed.

(** X19.  After [removeDevice] on a well-keyed registry the id is gone: a
    lookup finds nothing, and in the snapshot given to the subscribers no
    device and no end of a connection carries the id.  Every other device
    stays, up to its role. *)
Theorem removeDevice_gone :
  forall (s : Service) (deviceId : string),
    wellKeyed (devices s) ->
    let s' := fst (WorkCentricLocationService.removeDevice s deviceId) in
    let published := snd (WorkCentricLocationService.removeDevice s deviceId) in
    map_get deviceId (devices s') = None /\
    Forall (fun p =>
              Forall (fun d => dev_id d <> deviceId) (snap_devices (snd p)) /\
              Forall (fun c => dev_id (conn_from c) <> deviceId /\
                               dev_id (conn_to c) <> deviceId)
                     (snap_connections (snd p)))
           published /\
    (forall other d,
        other <> deviceId ->
        map_get other (devices s) = Some d ->
        exists d', map_get other (devices s') = Some d' /\ sameButRole d d').
Proof.
  intros s deviceId Hwk. cbv zeta.
  unfold WorkCentricLocationService.removeDevice. cbn [fst snd].
  set (s1 := withDevices s (map_delete deviceId (devices s))).
  pose proof (updateNetworkTopology_devices s1) as Hreb.
  pose proof (rebuilt_keys _ _ Hreb) as Hkeys.
  assert (Hok1 : wellKeyed (devices s1) /\ ~ In deviceId (map fst (devices s1))).
  { unfold s1. cbn [devices withDevices]. destruct Hwk as [Hnd Hk].
    destruct (map_delete_keys_NoDup deviceId (devices s) Hnd) as [H1 H2].
    split; [ split; [ exact H1 | ] | exact H2 ].
    apply Forall_forall. intros e He. apply map_delete_In in He.
    rewrite Forall_forall in Hk. apply Hk. exact He. }
  destruct Hok1 as [Hwk1 Hnotin1].
  set (s2 := WorkCentricLocationService.updateNetworkTopology s1) in *.
  assert (Hwk2 : wellKeyed (devices s2)).
  { unfold wellKeyed. rewrite Hkeys. split; [ apply Hwk1 | ].
    destruct Hwk1 as [_ Hk1]. clear -Hreb Hk1.
    induction Hreb as [| e e' l l' (Hk & (Hid & _) & _) Hrest IH]; [ constructor | ].
    inversion Hk1; subst. constructor; [ congruence | apply IH; assumption ]. }
  assert (Hnotin2 : ~ In deviceId (map fst (devices s2))) by (rewrite Hkeys; exact Hnotin1).
  split; [ apply map_get_None; exact Hnotin2 | ]. split.
  - apply Forall_forall. intros p Hp.
    unfold WorkCentricLocationService.notifySubscribers in Hp.
    apply in_map_iff in Hp. destruct Hp as (cb & <- & _).
    cbn [snd snap_devices snap_connections WorkCentricLocationService.snapshot]. split.
    + apply Forall_forall. intros d Hd. apply in_map_iff in Hd.
      destruct Hd as ([k0 d0] & <- & He). cbn.
      destruct Hwk2 as [_ Hk2]. rewrite Forall_forall in Hk2.
      pose proof (Hk2 _ He) as E. cbn in E |- *. rewrite E.
      intros ->. apply Hnotin2. apply in_map_iff. exists (deviceId, d0).
      split; [ reflexivity | exact He ].
    + pose proof (rebuild_anchored s1) as Hanch. fold s2 in Hanch.
      eapply Forall_impl; [ | exact Hanch ].
      intros c Hc. apply (anchored_other_id (devices s2)); assumption.
  - intros other d Hne Hget.
    pose proof (map_get_rebuilt other _ _ Hreb) as Hget'.
    unfold s1 in Hget' at 1. cbn [devices withDevices] in Hget'.
    rewrite map_get_delete_other in Hget' by congruence. rewrite Hget in Hget'.
    destruct Hget' as (d' & Hd' & Hsame & _). exists d'. split; assumption.
Qed.

Lemma sweepSample_wellKeyed : wellKeyed (devices sweepSample).
Proof.
  split.
  - cbn. repeat constructor; cbn; intuition discriminate.
  - cbn. repeat constructor.
Qed.

Lemma removeDevice_gone_witness :
  map_get "device-b" (devices (fst (WorkCentricLocationService.removeDevice
                                      sweepSample "device-b"))) = None.
Proof.
  exact (proj1 (removeDevice_gone sweepSample "device-b" sweepSample_wellKeyed)).
Defined.

(** X20.  Subscribing twice is subscribing once: a subscribed callback is
    called exactly once by a notification, and after its unsubscribe function
    ran it is not called any more while the other subscribers still are. *)
Theorem subscribe_unsubscribe :
  forall (s : Service) (callback : Callback),
    NoDup (subscribers s) ->
    let s1 := WorkCentricLocationService.subscribe s callback in
    let s2 := WorkCentricLocationService.unsubscribe s1 callback in
    NoDup (subscribers s1) /\
    WorkCentricLocationService.subscribe s1 callback = s1 /\
    count_occ Nat.eq_dec
      (map fst (WorkCentricLocationService.notifySubscribers s1)) callback = 1%nat /\
    NoDup (subscribers s2) /\
    ~ In callback (map fst (WorkCentricLocationService.notifySubscribers s2)) /\
    (forall other, other <> callback ->
                   (In other (map fst (WorkCentricLocationService.notifySubscribers s2))
                    <-> In other (subscribers s))).
Proof.
  intros s callback Hnd. cbv zeta.
  assert (Hcalls : forall t,
             map fst (WorkCentricLocationService.notifySubscribers t) = subscribers t).
  { intros t. apply notifySubscribers_all. }
  rewrite !Hcalls.
  assert (Hsub : subscribers (WorkCentricLocationService.subscribe s callback) =
                 if existsb (Nat.eqb callback) (subscribers s)
                 then subscribers s else subscribers s ++ [callback]).
  { unfold WorkCentricLocationService.subscribe.
    destruct (existsb (Nat.eqb callback) (subscribers s)); reflexivity. }
  assert (Hin1 : In callback (subscribers (WorkCentricLocationService.subscribe s callback))).
  { rewrite Hsub. destruct (existsb (Nat.eqb callback) (subscribers s)) eqn:Hex.
    - apply existsb_exists in Hex. destruct Hex as (x & Hx & Heq).
      apply Nat.eqb_eq in Heq. subst x. exact Hx.
    - apply in_or_app. right. left. reflexivity. }
  assert (Hnd1 : NoDup (subscribers (WorkCentricLocationService.subscribe s callback))).
  { rewrite Hsub. destruct (existsb (Nat.eqb callback) (subscribers s)) eqn:Hex;
      [ exact Hnd | ].
    apply NoDup_app; [ exact Hnd | repeat constructor; intros [] | ].
    intros x Hx [E | []]. subst x.
    assert (existsb (Nat.eqb callback) (subscribers s) = true)
      by (apply existsb_exists; exists callback;
          split; [ exact Hx | apply Nat.eqb_refl ]).
    congruence. }
  split; [ exact Hnd1 | ]. split; [ | split; [ | split; [ | split ] ] ].
  - unfold WorkCentricLocationService.subscribe at 1.
    assert (existsb (Nat.eqb callback)
              (subscribers (WorkCentricLocationService.subscribe s callback)) = true)
      as -> by (apply existsb_exists; exists callback;
                split; [ exact Hin1 | apply Nat.eqb_refl ]).
    reflexivity.
  - apply NoDup_count_occ'; assumption.
  - unfold WorkCentricLocationService.unsubscribe. cbn [subscribers withSubscribers].
    apply NoDup_filter. exact Hnd1.
  - unfold WorkCentricLocationService.unsubscribe. cbn [subscribers withSubscribers].
    intros Hin. apply filter_In in Hin. destruct Hin as [_ Hneq].
    rewrite Nat.eqb_refl in Hneq. discriminate.
  - intros other Hne.
    unfold WorkCentricLocationService.unsubscribe. cbn [subscribers withSubscribers].
    rewrite filter_In, Hsub.
    assert (Hneqb : negb (callback =? other)%nat = true).
    { destruct (Nat.eqb_spec callback other); [ congruence | reflexivity ]. }
    rewrite Hneqb.
    destruct (existsb (Nat.eqb callback) (subscribers s)).
    + tauto.
    + rewrite in_app_iff. cbn. split.
      * intros [[H | [H | []]] _]; [ exact H | congruence ].
      * intros H. split; [ left; exact H | reflexivity ].
Qed.

Lemma subscribe_unsubscribe_witness :
  count_occ Nat.eq_dec
    (map fst (WorkCentricLocationService.notifySubscribers
                (WorkCentricLocationService.subscribe oneSubscriber 1%nat))) 1%nat
  = 1%nat.
Proof.
  exact (proj1 (proj2 (proj2
    (subscribe_unsubscribe oneSubscriber 1%nat
       ltac:(repeat constructor; cbn; intuition discriminate))))).
Defined.

(** An entry through the sweep and the rebuild that may follow: what
    [sweptEntry] says, and position, id and name as before. *)
Lemma markOfflineIfStale_entries (s : Service) (now : Z) :
  Forall2 (fun e e' =>
             sweptEntry now e e' /\
             dev_position (snd e') = dev_position (snd e) /\
             dev_id (snd e') = dev_id (snd e) /\
             dev_name (snd e') = dev_name (snd e))
    (devices s)
    (devices (fst (WorkCentricLocationService.markOfflineIfStale s now))).
Proof.
  assert (Hstep : forall e e1 e2 : string * Device,
             e1 = (fst e,
                   if WorkCentricLocationService.stale now (snd e) && dev_isOnline (snd e)
                   then setOnline (snd e) false else snd e) ->
             rebuiltEntry e1 e2 ->
             sweptEntry now e e2 /\
             dev_position (snd e2) = dev_position (snd e) /\
             dev_id (snd e2) = dev_id (snd e) /\
             dev_name (snd e2) = dev_name (snd e)).
  { intros e e1 e2 He1 Hreb.
    split; [ exact (sweptEntry_compose now e e1 e2 He1 Hreb) | ].
    destruct Hreb as (_ & (Hid & Hname & Hpos & _) & _). subst e1. cbn [snd] in *.
    rewrite Hpos, Hid, Hname.
    destruct (_ && _); repeat split. }
  unfold WorkCentricLocationService.markOfflineIfStale.
  pose proof (sweep_entries now (devices s) false) as Hsw.
  destruct (WorkCentricLocationService.sweep now (devices s) false)
    as [devices' changed]. cbn [fst] in Hsw.
  destruct changed; cbn [fst].
  - eapply Forall2_compose; [ exact Hstep | exact Hsw | ].
    apply (updateNetworkTopology_devices (withDevices s devices')).
  - eapply Forall2_compose; [ exact Hstep | exact Hsw | ].
    cbn. apply Forall2_refl. apply rebuiltEntry_refl.
Qed.

Lemma map_get_Forall2 (rel : string * Device -> string * Device -> Prop)
    (k : string) (l l' : list (string * Device)) :
  (forall e e', rel e e' -> fst e' = fst e) ->
  Forall2 rel l l' ->
  match map_get k l with
  | Some d => exists d', map_get k l' = Some d' /\ rel (k, d) (k, d')
  | None => map_get k l' = None
  end.
Proof.
  intros Hkey. induction 1 as [| [k0 d0] [k1 d1] l l' Hrel Hrest IH]; cbn;
    [ reflexivity | ].
  pose proof (Hkey _ _ Hrel) as Hk. cbn in Hk. subst k1.
  destruct (String.eqb_spec k0 k) as [-> | _]; [ | exact IH ].
  exists d1. split; [ reflexivity | exact Hrel ].
Qed.

(** X21.  A location update of a registered device stores position, time
    and accuracy and puts the device online, keeping id and name; a sweep no
    later than 30000 ms after the update leaves it online and positioned. *)
Theorem updateDeviceLocation_reported :
  forall (s : Service) (deviceId : string) (position : LatLng) (accuracy : R)
         (now : Z) (directory : OverpassReply) (routing : nat -> OsrmReply)
         (device : Device),
    map_get deviceId (devices s) = Some device ->
    let s' := fst (WorkCentricLocationService.updateDeviceLocation
                     s deviceId position accuracy now directory routing) in
    exists d',
      map_get deviceId (devices s') = Some d' /\
      dev_position d' = Some position /\
      dev_lastUpdate d' = Some now /\
      dev_isOnline d' = true /\
      dev_accuracy d' = accuracy /\
      dev_id d' = dev_id device /\
      dev_name d' = dev_name device /\
      forall later : Z,
        (later - now <= 30000)%Z ->
        exists d'',
          map_get deviceId
            (devices (fst (WorkCentricLocationService.markOfflineIfStale s' later)))
          = Some d'' /\
          dev_isOnline d'' = true /\ dev_position d'' = Some position.
Proof.
  intros s deviceId position accuracy now directory routing device Hget. cbv zeta.
  rewrite (updateDeviceLocation_known s deviceId position accuracy now directory
             routing device Hget).
  match goal with
  | |- context [WorkCentricLocationService.updateHospitals ?s1 ?a ?b ?c ?d ?e] =>
      pose proof (updateHospitals_state s1 a b c d e) as [Hdev _];
      set (sh := fst (WorkCentricLocationService.updateHospitals s1 a b c d e)) in *
  end.
  cbn [devices withDevices] in Hdev.
  pose proof (updateNetworkTopology_devices sh) as Hreb.
  pose proof (map_get_rebuilt deviceId _ _ Hreb) as Hget'.
  rewrite Hdev, map_get_set_same in Hget'.
  destruct Hget' as (d' & Hd' & (Hid & Hname & Hpos & Hlu & Hon & Hacc & _) & _).
  set (s2 := WorkCentricLocationService.updateNetworkTopology sh) in *.
  exists d'. cbn [devices withPending].
  repeat (split; [ first [ exact Hd' | assumption ] | ]).
  intros later Hlater.
  pose proof (markOfflineIfStale_entries (withPending s2 (S (pendingNotifies s2))) later)
    as Hsw.
  cbn [devices withPending] in Hsw.
  pose proof (fun Hkey => map_get_Forall2 _ deviceId _ _ Hkey Hsw) as Hlook.
  specialize (Hlook ltac:(intros e e' [Hs _]; exact (proj1 Hs))).
  rewrite Hd' in Hlook. unfold sweptEntry in Hlook.
  destruct Hlook as (d'' & Hd'' & (_ & _ & Hiff & _) & Hpos'' & _).
  cbn [fst snd] in Hiff, Hpos''.
  exists d''. split; [ exact Hd'' | ].
  split; [ | rewrite Hpos'', Hpos; reflexivity ].
  destruct (dev_isOnline d'') eqn:Hon''; [ reflexivity | ].
  exfalso. destruct (proj1 Hiff eq_refl) as [Hoff | (t & Ht & Hgt)].
  - cbn in Hon. congruence.
  - cbn in Hlu. rewrite Hlu in Ht. injection Ht as <-. lia.
Qed.

Lemma updateDeviceLocation_reported_witness :
  exists d',
    map_get "device-1" (devices oneLocated) = Some d' /\
    dev_position d' = Some sampleOrigin /\ dev_isOnline d' = true.
Proof.
  destruct (updateDeviceLocation_reported oneRegistered "device-1" sampleOrigin 5 1000
              OverpassNotOk (fun _ => OsrmNotOk)
              (freshDevice "device-1" "Worker-1" "worker") eq_refl)
    as (d' & H1 & H2 & _ & H3 & _).
  exists d'. split; [ exact H1 | split; [ exact H2 | exact H3 ] ].
Defined.

(** X22.  A sweep leaves nothing for a second sweep at the same or an
    earlier time: the second one changes nothing and publishes nothing. *)
Theorem markOfflineIfStale_twice :
  forall (s : Service) (now earlier : Z),
    (earlier <= now)%Z ->
    let s1 := fst (WorkCentricLocationService.markOfflineIfStale s now) in
    WorkCentricLocationService.markOfflineIfStale s1 earlier = (s1, []).
Proof.
  intros s now earlier Hle. cbv zeta.
  set (s1 := fst (WorkCentricLocationService.markOfflineIfStale s now)).
  pose proof (markOfflineIfStale_entries s now) as Hsw. fold s1 in Hsw.
  assert (Hnone : existsb (fun e => WorkCentricLocationService.stale earlier (snd e)
                                    && dev_isOnline (snd e)) (devices s1) = false).
  { revert Hsw. generalize (devices s1) as l'. generalize (devices s) as l.
    induction 1 as [| e e' l l' [Hs _] Hrest IH]; [ reflexivity | ].
    cbn [existsb]. rewrite IH, orb_false_r.
    destruct Hs as (_ & Hlu & Hiff & _).
    destruct (WorkCentricLocationService.stale earlier (snd e')) eqn:Hst;
      [ | reflexivity ].
    cbn [andb]. apply Hiff. right.
    apply stale_spec in Hst. destruct Hst as (t & Ht & Hgt).
    exists t. split; [ congruence | lia ]. }
  unfold WorkCentricLocationService.markOfflineIfStale.
  pose proof (sweep_changed earlier (devices s1) false) as Hch.
  pose proof (sweep_nothing_stale earlier (devices s1) Hnone) as Hfst.
  destruct (WorkCentricLocationService.sweep earlier (devices s1) false)
    as [devices' changed]. cbn [fst snd] in *.
  rewrite Hnone in Hch. cbn in Hch. subst changed devices'.
  rewrite withDevices_same. reflexivity.
Qed.

Lemma markOfflineIfStale_twice_witness :
  WorkCentricLocationService.markOfflineIfStale
    (fst (WorkCentricLocationService.markOfflineIfStale sweepSample 31001)) 31001
  = (fst (WorkCentricLocationService.markOfflineIfStale sweepSample 31001), []).
Proof.
  exact (markOfflineIfStale_twice sweepSample 31001 31001 ltac:(lia)).
Defined.

(** ** CoordinationService: the hospital refresh *)

Lemma urgency_sorted (routes : list HospitalRoute) :
  Sorted (fun x y => urgencyScore y <= urgencyScore x)
    (js_sort WorkCentricLocationService.urgencyCompare routes).
Proof.
  apply js_sort_Sorted;
    unfold WorkCentricLocationService.urgencyCompare, urgencyScore;
    intros x y H; lra.
Qed.


(** ** Invariants of the running service *)

Lemma run_invariant (P : Service -> Prop) :
  P WorkCentricLocationService.new ->
  (forall s c, P s -> P (fst (call s c))) ->
  forall s, reachable s -> P s.
Proof.
  intros Hnew Hstep s [cs ->]. unfold run.
  generalize WorkCentricLocationService.new, Hnew.
  induction cs as [| c cs IH]; intros s0 H0; cbn; [ exact H0 | ].
  apply IH. apply Hstep. exact H0.
Qed.

Lemma updateNetworkTopology_frame (s : Service) :
  let s' := WorkCentricLocationService.updateNetworkTopology s in
  hospitals s' = hospitals s /\ hospitalRoutes s' = hospitalRoutes s /\
  subscribers s' = subscribers s /\
  autoSelectShortestRoute s' = autoSelectShortestRoute s /\
  networkTopology s' = networkTopology s /\
  pendingNotifies s' = pendingNotifies s.
Proof.
  cbv zeta. unfold WorkCentricLocationService.updateNetworkTopology.
  destruct (length (filter usable (map snd (devices s))) <? 2)%nat; repeat split.
Qed.

Lemma updateHospitals_frame (s : Service) (latitude longitude radiusKm : R)
    (directory : OverpassReply) (routing : nat -> OsrmReply) :
  let s' := fst (WorkCentricLocationService.updateHospitals
                   s latitude longitude radiusKm directory routing) in
  devices s' = devices s /\ connections s' = connections s /\
  subscribers s' = subscribers s /\ pendingNotifies s' = pendingNotifies s.
Proof.
  cbv zeta. unfold WorkCentricLocationService.updateHospitals. cbn [fst].
  destruct (0 <? length _)%nat; repeat split.
Qed.

Lemma registryOk_sweep (now : Z) (entries : list (string * Device)) :
  registryOk entries ->
  registryOk (fst (WorkCentricLocationService.sweep now entries false)).
Proof.
  intros [[Hnd Hkeys] Hreps].
  pose proof (sweep_entries now entries false) as Hsw.
  revert Hsw. generalize (fst (WorkCentricLocationService.sweep now entries false)) as out.
  intros out Hsw.
  assert (Hk : map fst out = map fst entries).
  { clear -Hsw. induction Hsw as [| e e' l l' He Hrest IH]; cbn; [ reflexivity | ].
    rewrite He, IH. reflexivity. }
  unfold registryOk, wellKeyed. rewrite Hk. split; [ split; [ exact Hnd | ] | ].
  - clear Hnd Hreps Hk. induction Hsw as [| e e' l l' He Hrest IH]; [ constructor | ].
    inversion Hkeys; subst. constructor; [ | apply IH; assumption ].
    cbn [fst snd]. destruct (_ && _); cbn; assumption.
  - clear Hnd Hkeys Hk. induction Hsw as [| e e' l l' He Hrest IH]; [ constructor | ].
    inversion Hreps; subst. constructor; [ | apply IH; assumption ].
    cbn [snd]. destruct (_ && _); cbn; assumption.
Qed.

(** Every call either leaves registry and connections alone or ends with a
    rebuild of the topology over a registry that is as well formed as the
    one before. *)
Lemma call_rebuild_or_frame (s : Service) (c : Call) :
  (devices (fst (call s c)) = devices s /\
   connections (fst (call s c)) = connections s) \/
  exists s1,
    devices (fst (call s c)) =
      devices (WorkCentricLocationService.updateNetworkTopology s1) /\
    connections (fst (call s c)) =
      connections (WorkCentricLocationService.updateNetworkTopology s1) /\
    (registryOk (devices s) -> registryOk (devices s1)).
Proof.
  destruct c as [latitude longitude radiusKm directory routing | enabled
                 | deviceId deviceName workRole
                 | deviceId position accuracy now directory routing | | callback
                 | callback | deviceId | topology | now]; cbn [call].
  - left. pose proof (updateHospitals_frame s latitude longitude radiusKm directory routing)
      as (H1 & H2 & _). split; assumption.
  - right. unfold WorkCentricLocationService.setEmergencyMode. cbn [fst].
    eexists. split; [ reflexivity | ]. split; [ reflexivity | ].
    destruct enabled; cbn; auto.
  - right. unfold WorkCentricLocationService.registerDevice. cbn [fst].
    eexists. split; [ reflexivity | ]. split; [ reflexivity | ].
    cbn [devices withDevices]. intros Hok.
    apply registryOk_set; [ reflexivity | split; reflexivity | exact Hok ].
  - destruct (map_get deviceId (devices s)) as [device |] eqn:Hget.
    + right.
      rewrite (updateDeviceLocation_known s deviceId position accuracy now directory
                 routing device Hget).
      cbn [devices connections withPending].
      eexists. split; [ reflexivity | ]. split; [ reflexivity | ].
      intros Hok.
      match goal with
      | |- context [WorkCentricLocationService.updateHospitals ?s1 ?a ?b ?c ?d ?e] =>
          pose proof (updateHospitals_frame s1 a b c d e) as (Hdev & _)
      end.
      rewrite Hdev. cbn [devices withDevices].
      assert (Hin : In (deviceId, device) (devices s)) by (apply map_get_In; exact Hget).
      destruct Hok as [[Hnd Hkeys] Hreps].
      apply registryOk_set.
      * rewrite Forall_forall in Hkeys. exact (Hkeys _ Hin).
      * split; discriminate.
      * split; [ split | ]; assumption.
    + left. unfold WorkCentricLocationService.updateDeviceLocation. rewrite Hget.
      split; reflexivity.
  - left. unfold WorkCentricLocationService.timerFires.
    destruct (pendingNotifies s); split; reflexivity.
  - left. unfold WorkCentricLocationService.subscribe.
    destruct (existsb _ _); split; reflexivity.
  - left. split; reflexivity.
  - right. unfold WorkCentricLocationService.removeDevice. cbn [fst].
    eexists. split; [ reflexivity | ]. split; [ reflexivity | ].
    cbn [devices withDevices]. apply registryOk_delete.
  - right. unfold WorkCentricLocationService.setNetworkTopology. cbn [fst].
    eexists. split; [ reflexivity | ]. split; [ reflexivity | ].
    cbn. auto.
  - unfold WorkCentricLocationService.markOfflineIfStale.
    pose proof (sweep_changed now (devices s) false) as Hch.
    pose proof (registryOk_sweep now (devices s)) as Hok.
    pose proof (sweep_nothing_stale now (devices s)) as Hsame.
    destruct (WorkCentricLocationService.sweep now (devices s) false)
      as [devices' changed]. cbn [fst snd] in *.
    destruct changed; cbn [fst].
    + right. eexists. split; [ reflexivity | ]. split; [ reflexivity | ].
      cbn [devices withDevices]. exact Hok.
    + left. cbn in Hch. rewrite <- Hsame by (symmetry; exact Hch).
      split; reflexivity.
Qed.

(** X24.  In every state a new service can reach, the registry holds at most
    one device per id, each under its own id, and a device has a position
    exactly when it has a time of last update. *)
Theorem reachable_registry :
  forall s : Service, reachable s -> registryOk (devices s).
Proof.
  apply run_invariant.
  - split; [ split; constructor | constructor ].
  - intros s c Hok.
    destruct (call_rebuild_or_frame s c) as [[Hdev _] | (s1 & Hdev & _ & Hok1)].
    + rewrite Hdev. exact Hok.
    + rewrite Hdev.
      exact (registryOk_rebuilt _ _ (updateNetworkTopology_devices s1) (Hok1 Hok)).
Qed.

Lemma reachable_oneLocated : reachable oneLocated.
Proof.
  exists [ CallRegisterDevice "device-1" "Worker-1" "worker";
           CallUpdateDeviceLocation "device-1" sampleOrigin 5 1000
             OverpassNotOk (fun _ => OsrmNotOk) ].
  reflexivity.
Qed.

Lemma reachable_registry_witness : registryOk (devices oneLocated).
Proof. exact (reachable_registry oneLocated reachable_oneLocated). Defined.






Lemma findNearbyHospitals_priority_sorted (latitude longitude radiusKm : R)
    (directory : OverpassReply) :
  Sorted priorityOrder
    (WorkCentricHospitalService.findNearbyHospitals latitude longitude radiusKm
       directory).
Proof.
  assert (Hfail : forall reply, DirectoryFailure reply ->
             Sorted priorityOrder
               (WorkCentricHospitalService.findNearbyHospitals latitude longitude
                  radiusKm reply))
    by (intros reply; apply fallback_ranking_sorted).
  destruct directory as [ | | | [elements |]]; try (apply Hfail; constructor).
  unfold WorkCentricHospitalService.findNearbyHospitals,
    WorkCentricHospitalService.findNearbyHospitals_try.
  apply js_sort_Sorted; intros x y H.
  - apply rankCompare_le in H. unfold rankOrder, priorityOrder in *. lia.
  - apply rankCompare_gt in H. unfold rankOrder, priorityOrder in *. lia.
Qed.

Lemma updateHospitals_refresh (s : Service) (latitude longitude radiusKm : R)
    (directory : OverpassReply) (routing : nat -> OsrmReply) :
  routesOk s ->
  let s' := fst (WorkCentricLocationService.updateHospitals
                   s latitude longitude radiusKm directory routing) in
  routesOk s' /\ Sorted priorityOrder (hospitals s').
Proof.
  intros (Hsel & Hlen & Hsorted). cbv zeta.
  unfold WorkCentricLocationService.updateHospitals. cbn [fst].
  cbn [hospitals withHospitals].
  pose proof (findNearbyHospitals_priority_sorted latitude longitude radiusKm directory)
    as Hprio.
  set (ranking := WorkCentricHospitalService.findNearbyHospitals
                    latitude longitude radiusKm directory) in *.
  destruct (0 <? length ranking)%nat.
  - set (routes := js_sort WorkCentricLocationService.urgencyCompare
                     (RoutingService.getMultipleRoutes latitude longitude
                        (firstn 5 ranking) routing)).
    split; [ | exact Hprio ].
    unfold routesOk, WorkCentricLocationService.getEmergencyRoute.
    cbn [hospitalRoutes autoSelectShortestRoute withRoutes].
    split; [ destruct routes; reflexivity | ]. split; [ | apply urgency_sorted ].
    unfold routes. rewrite js_sort_length, getMultipleRoutes_map.
    unfold mapi. rewrite length_mapi_from. apply firstn_le_length.
  - split; [ | exact Hprio ].
    unfold routesOk, WorkCentricLocationService.getEmergencyRoute.
    cbn [hospitalRoutes autoSelectShortestRoute withHospitals].
    split; [ exact Hsel | split; assumption ].
Qed.

(** Every call either leaves ranking, routes and selection alone or ends
    them with those of a hospital refresh. *)
Lemma call_refresh (s : Service) (c : Call) :
  routesOk s /\ Sorted priorityOrder (hospitals s) ->
  routesOk (fst (call s c)) /\ Sorted priorityOrder (hospitals (fst (call s c))).
Proof.
  intros [Hroutes Hprio].
  assert (Hsame : forall s',
             hospitals s' = hospitals s -> hospitalRoutes s' = hospitalRoutes s ->
             autoSelectShortestRoute s' = autoSelectShortestRoute s ->
             routesOk s' /\ Sorted priorityOrder (hospitals s')).
  { intros s' H1 H2 H3. unfold routesOk, WorkCentricLocationService.getEmergencyRoute.
    rewrite H1, H2, H3. split; [ exact Hroutes | exact Hprio ]. }
  assert (Hreb : forall s1,
             hospitals s1 = hospitals s -> hospitalRoutes s1 = hospitalRoutes s ->
             autoSelectShortestRoute s1 = autoSelectShortestRoute s ->
             routesOk (WorkCentricLocationService.updateNetworkTopology s1) /\
             Sorted priorityOrder
               (hospitals (WorkCentricLocationService.updateNetworkTopology s1))).
  { intros s1 H1 H2 H3.
    pose proof (updateNetworkTopology_frame s1) as (F1 & F2 & _ & F4 & _).
    cbv zeta in F1, F2, F4. apply Hsame; congruence. }
  destruct c as [latitude longitude radiusKm directory routing | enabled
                 | deviceId deviceName workRole
                 | deviceId position accuracy now directory routing | | callback
                 | callback | deviceId | topology | now]; cbn [call].
  - apply updateHospitals_refresh. exact Hroutes.
  - unfold WorkCentricLocationService.setEmergencyMode. cbn [fst].
    apply Hreb; destruct enabled; reflexivity.
  - apply Hreb; reflexivity.
  - destruct (map_get deviceId (devices s)) as [device |] eqn:Hget.
    + rewrite (updateDeviceLocation_known s deviceId position accuracy now directory
                 routing device Hget).
      match goal with
      | |- context [WorkCentricLocationService.updateHospitals ?s1 ?a ?b ?c ?d ?e] =>
          pose proof (updateHospitals_refresh s1 a b c d e Hroutes) as [Hr Hp];
          set (sh := fst (WorkCentricLocationService.updateHospitals s1 a b c d e)) in *
      end.
      pose proof (updateNetworkTopology_frame sh) as (F1 & F2 & _ & F4 & _).
      cbv zeta in F1, F2, F4.
      unfold routesOk, WorkCentricLocationService.getEmergencyRoute in *.
      cbn [hospitals hospitalRoutes autoSelectShortestRoute withPending].
      rewrite F1, F2, F4. split; assumption.
    + unfold WorkCentricLocationService.updateDeviceLocation. rewrite Hget.
      split; assumption.
  - unfold WorkCentricLocationService.timerFires.
    destruct (pendingNotifies s); apply Hsame; reflexivity.
  - unfold WorkCentricLocationService.subscribe.
    destruct (existsb _ _); apply Hsame; reflexivity.
  - apply Hsame; reflexivity.
  - apply Hreb; reflexivity.
  - apply Hreb; reflexivity.
  - unfold WorkCentricLocationService.markOfflineIfStale.
    destruct (WorkCentricLocationService.sweep now (devices s) false)
      as [devices' changed].
    destruct changed; cbn [fst]; [ apply Hreb | apply Hsame ]; reflexivity.
Qed.

Lemma reachable_refresh (s : Service) :
  reachable s -> routesOk s /\ Sorted priorityOrder (hospitals s).
Proof.
  revert s. apply run_invariant.
  - split; [ | constructor ].
    split; [ reflexivity | split; [ cbn; lia | constructor ] ].
  - intros s c H. apply call_refresh. exact H.
Qed.



(** X27.  In every reachable state the held facilities are in descending
    order of [workPriority]: the facility the topology and the role
    assignment take as the nearest one has the highest score of all. *)
Theorem reachable_hospitals_by_priority :
  forall s : Service,
    reachable s ->
    Sorted priorityOrder (hospitals s) /\
    forall top rest,
      hospitals s = top :: rest ->
      forall h, In h rest -> (hosp_workPriority h <= hosp_workPriority top)%Z.
Proof.
  intros s Hreach.
  destruct (reachable_refresh s Hreach) as [_ Hprio].
  split; [ exact Hprio | ].
  intros top rest Heq h Hh. rewrite Heq in Hprio.
  apply Sorted_StronglySorted in Hprio;
    [ | intros x y z Hxy Hyz; unfold priorityOrder in *; lia ].
  apply StronglySorted_inv in Hprio. destruct Hprio as [_ Hall].
  rewrite Forall_forall in Hall. specialize (Hall h Hh).
  unfold priorityOrder in Hall. lia.
Qed.

Lemma reachable_hospitals_by_priority_witness :
  Sorted priorityOrder (hospitals oneLocated).
Proof.
  exact (proj1 (reachable_hospitals_by_priority oneLocated reachable_oneLocated)).
Defined.

Lemma rebuild_topologyOk (s : Service) :
  topologyOk (devices (WorkCentricLocationService.updateNetworkTopology s))
             (connections (WorkCentricLocationService.updateNetworkTopology s)).
Proof.
  split; [ apply rebuild_anchored | ].
  intros Hfew.
  pose proof (updateNetworkTopology_roles s) as Hroles. cbv zeta in Hroles.
  unfold WorkCentricLocationService.getAllDevices in Hroles.
  rewrite Hroles in Hfew.
  destruct (Nat.ltb_spec (length (filter usable (map snd (devices s)))) 2)
    as [Hlt | Hge].
  - rewrite (updateNetworkTopology_few s Hlt). reflexivity.
  - exfalso.
    pose proof (Forall2_length
                  (assignWorkRoles_sameButRole (hospitals s)
                     (filter usable (map snd (devices s))))) as Hlen.
    lia.
Qed.

(** X28.  In every reachable state both ends of every stored connection are
    online positioned devices of the registry, and no connection is stored
    while fewer than two devices are online and positioned. *)
Theorem reachable_topology :
  forall s : Service,
    reachable s -> topologyOk (devices s) (connections s).
Proof.
  apply run_invariant.
  - split; [ constructor | reflexivity ].
  - intros s c Hok.
    destruct (call_rebuild_or_frame s c) as [[Hdev Hconn] | (s1 & Hdev & Hconn & _)].
    + rewrite Hdev, Hconn. exact Hok.
    + rewrite Hdev, Hconn. apply rebuild_topologyOk.
Qed.

Lemma reachable_topology_witness :
  topologyOk (devices oneLocated) (connections oneLocated).
Proof. exact (reachable_topology oneLocated reachable_oneLocated). Defined.

(** ** The tracker component: route selection *)

Lemma shortestFold_min (rest : list HospitalRoute) :
  forall first : HospitalRoute,
    let r := fold_left
               (fun shortest current =>
                  if Rltb (hr_roadDistance current) (hr_roadDistance shortest)
                  then current else shortest)
               rest first in
    In r (first :: rest) /\
    forall x, In x (first :: rest) -> hr_roadDistance r <= hr_roadDistance x.
Proof.
  induction rest as [| c rest IH]; intros first; cbn [fold_left].
  - cbn. split; [ left; reflexivity | intros x [<- | []]; lra ].
  - match goal with
    | |- context [fold_left _ rest ?a] => set (step := a)
    end.
    assert (Hstep : (step = c /\ hr_roadDistance c < hr_roadDistance first) \/
                    (step = first /\ hr_roadDistance first <= hr_roadDistance c)).
    { unfold step, Rltb.
      destruct (Rlt_dec (hr_roadDistance c) (hr_roadDistance first));
        [ left | right ]; split; auto; lra. }
    destruct (IH step) as [Hin Hmin]. cbv zeta in Hin, Hmin. split.
    + destruct Hin as [E | Hin]; [ | right; right; exact Hin ].
      rewrite <- E.
      destruct Hstep as [[-> _] | [-> _]];
        [ right; left; reflexivity | left; reflexivity ].
    + pose proof (Hmin step (or_introl eq_refl)) as Hs.
      intros x [<- | [<- | Hx]].
      * destruct Hstep as [[E Hlt] | [E Hle]];
          apply (f_equal hr_roadDistance) in E; lra.
      * destruct Hstep as [[E Hlt] | [E Hle]];
          apply (f_equal hr_roadDistance) in E; lra.
      * apply Hmin. right. exact Hx.
Qed.

(** X29.  Selection by road distance.  [selectShortestRoute] picks a listed
    route that no listed route undercuts in [roadDistance], and keeps the
    selection when no route is listed.  The automatic selection after a
    location update never changes the selection in manual mode, never
    replaces it by a route with a longer or equal [roadDistance], and in
    automatic mode leaves a route selected whenever one is listed. *)
Theorem selection_by_road_distance :
  forall (selectedRoute : option HospitalRoute) (autoRouting : bool)
         (networkData : NetworkSnapshot),
    let routes := snap_hospitalRoutes networkData in
    let picked := OptimizedHospitalTracker.selectShortestRoute selectedRoute networkData in
    let auto :=
      OptimizedHospitalTracker.autoSelectAfterUpdate selectedRoute autoRouting
        networkData in
    (routes = [] -> picked = selectedRoute) /\
    (routes <> [] ->
     exists r, picked = Some r /\ In r routes /\
               forall x, In x routes -> hr_roadDistance r <= hr_roadDistance x) /\
    (autoRouting = false -> auto = selectedRoute) /\
    (forall before after,
        selectedRoute = Some before -> auto = Some after ->
        after = before \/ hr_roadDistance after < hr_roadDistance before) /\
    (autoRouting = true -> routes <> [] -> auto <> None).
Proof.
  intros selectedRoute autoRouting networkData. cbv zeta.
  unfold OptimizedHospitalTracker.selectShortestRoute,
    OptimizedHospitalTracker.autoSelectAfterUpdate.
  destruct (snap_hospitalRoutes networkData) as [| first rest].
  - repeat split; try contradiction; try reflexivity.
    + rewrite andb_false_r. reflexivity.
    + rewrite andb_false_r. intros before after -> [= <-]. left. reflexivity.
  - pose proof (shortestFold_min rest first) as [Hin Hmin]. cbv zeta in Hin, Hmin.
    split; [ discriminate | ]. split.
    { intros _. eexists. split; [ reflexivity | ]. split; assumption. }
    cbn [length Nat.ltb Nat.leb]. rewrite andb_true_r.
    split; [ intros ->; reflexivity | ]. split.
    + intros before after -> Hafter. destruct autoRouting.
      * unfold Rltb in Hafter.
        destruct (Rlt_dec (hr_roadDistance first) (hr_roadDistance before));
          injection Hafter as <-; [ right; assumption | left; reflexivity ].
      * injection Hafter as <-. left. reflexivity.
    + intros -> _. destruct selectedRoute as [selected |]; [ | discriminate ].
      destruct (Rltb _ _); discriminate.
Qed.

(** X30.  The subscriber callback of the component.  In automatic mode a
    snapshot with a shortest route leaves a route with the id of that route
    selected; in manual mode an existing selection is never changed; a
    snapshot with an emergency route never leaves the selection empty; and
    the new selection is always the old one or one of the two routes of the
    snapshot. *)
Theorem onSnapshot_selection :
  forall (selectedRoute : option HospitalRoute) (autoRouting : bool)
         (data : NetworkSnapshot),
    let after :=
      OptimizedHospitalTracker.onSnapshot selectedRoute autoRouting data in
    (autoRouting = true ->
     forall shortest,
       snap_shortestRoute data = Some shortest ->
       exists r, after = Some r /\
                 OptimizedHospitalTracker.routeId r =
                 OptimizedHospitalTracker.routeId shortest) /\
    (autoRouting = false -> selectedRoute <> None -> after = selectedRoute) /\
    (snap_emergencyRoute data <> None -> after <> None) /\
    (after = selectedRoute \/ after = snap_shortestRoute data \/
     after = snap_emergencyRoute data).
Proof.
  intros selectedRoute autoRouting data. cbv zeta.
  unfold OptimizedHospitalTracker.onSnapshot.
  split; [ | split; [ | split ] ].
  - intros -> shortest ->. cbn [andb].
    destruct selectedRoute as [selected |].
    + destruct (String.eqb_spec (OptimizedHospitalTracker.routeId selected)
                  (OptimizedHospitalTracker.routeId shortest)) as [Heq | Hne];
        cbn [negb].
      * exists selected. split; [ | exact Heq ].
        destruct (snap_emergencyRoute data); reflexivity.
      * exists shortest. split; reflexivity.
    + exists shortest. split; reflexivity.
  - intros -> Hsel. destruct selectedRoute as [selected |]; [ | contradiction ].
    cbn [andb]. destruct (snap_shortestRoute data), (snap_emergencyRoute data);
      reflexivity.
  - intros Hem. destruct (snap_emergencyRoute data) as [e |]; [ | contradiction ].
    destruct (snap_shortestRoute data) as [sh |], selectedRoute as [sel |];
      try destruct (autoRouting && _); discriminate.
  - destruct (snap_shortestRoute data) as [sh |], (snap_emergencyRoute data) as [e |],
      selectedRoute as [sel |]; try destruct (autoRouting && _); auto.
Qed.
